(** * Crisis risk assessment and escalation: a shallow embedding

    Source: [backend/services/crisis_service.py], class
    [CrisisDetectionService].

    Conventions of the embedding.

    - Python [float] arithmetic is written once, over the interface [Arith]
      (literals, [+], [*], [<]).  Two instances are given: [exact], where a
      float is a rational number and a decimal literal denotes its exact
      value, and [binary64], IEEE 754 double precision with rounding to
      nearest even, which is what CPython computes.  Statements about all
      scores are proved in [exact] by algebra; in [binary64] a statement is
      proved by running the program, on a concrete input or on every value
      that the catalog lets it reach.
    - A Python [str] is the [string] of its UTF-8 bytes.  [len] counts
      characters and [strip] knows the white space of Unicode; [lower] is
      exact in the ASCII characters of its result, which is all the program
      looks at.
    - Loops over lists with mutable accumulators are [fold_left]s whose state
      is the tuple of the accumulators.
    - The database session is an [EventStore]: for every call the service
      makes into it, whether the call returns or raises. *)

From Stdlib Require Import List String Ascii Bool Arith ZArith QArith Lia Lqa.
From Stdlib Require PrimFloat Uint63 FloatAxioms.
Import ListNotations.

Local Open Scope string_scope.
Local Open Scope list_scope.

(** ** Python floats *)

Class Arith : Type := {
  num : Type;
  lit : Q -> num;              (* a decimal literal of the source *)
  of_nat : nat -> num;         (* float(n), for int * float *)
  add : num -> num -> num;
  mul : num -> num -> num;
  ltb : num -> num -> bool     (* x < y *)
}.

Declare Scope py_scope.
Delimit Scope py_scope with py.
Notation "x + y" := (add x y) : py_scope.
Notation "x * y" := (mul x y) : py_scope.
Notation "x <? y" := (ltb x y) : py_scope.
Notation "x >? y" := (ltb y x) : py_scope.

(** Python's [min(a, b)]: the first argument, unless the second is smaller. *)
Definition pymin {A : Arith} (a b : num) : num :=
  if (b <? a)%py then b else a.

Definition Qltb (x y : Q) : bool := negb (Qle_bool y x).

#[export] Instance exact : Arith := {|
  num := Q;
  lit := fun q => q;
  of_nat := fun n => inject_Z (Z.of_nat n);
  add := Qplus;
  mul := Qmult;
  ltb := Qltb
|}.

Definition float_of_Z (z : Z) : PrimFloat.float :=
  PrimFloat.of_uint63 (Uint63.of_Z z).

(** The double nearest to a decimal literal: numerator and denominator are
    small integers, hence exact, and IEEE division rounds correctly. *)
Definition float_of_Q (q : Q) : PrimFloat.float :=
  PrimFloat.div (float_of_Z (Qnum q)) (float_of_Z (Zpos (Qden q))).

#[export] Instance binary64 : Arith := {|
  num := PrimFloat.float;
  lit := float_of_Q;
  of_nat := fun n => float_of_Z (Z.of_nat n);
  add := PrimFloat.add;
  mul := PrimFloat.mul;
  ltb := PrimFloat.ltb
|}.

(** ** Python strings

    A [str] is kept as the [string] of its UTF-8 bytes.  Every keyword,
    modifier, negation term and other literal of the program is ASCII, and
    an ASCII string occurs in a [str] exactly when its bytes occur in the
    bytes of the [str]. *)

(** [needle in hay] *)
Fixpoint str_in (needle hay : string) : bool :=
  if prefix needle hay then true
  else match hay with
       | EmptyString => false
       | String _ rest => str_in needle rest
       end.

Definition is_byte (c : ascii) (n : nat) : bool :=
  Nat.eqb (nat_of_ascii c) n.

Definition lower_char (c : ascii) : ascii :=
  let n := nat_of_ascii c in
  if (65 <=? n)%nat && (n <=? 90)%nat then ascii_of_nat (n + 32) else c.

(** [s.lower()], exact in its ASCII characters.  [str.lower] maps A-Z to
    a-z and two more characters to ASCII letters: U+0130 (bytes 196 176) to
    [i] followed by U+0307 (bytes 204 135), and U+212A KELVIN SIGN (bytes
    226 132 170) to [k].  It puts no other ASCII character into its result
    and takes none away.  Every other character is kept here, where
    [str.lower] may put another character that is not ASCII either; the
    program only searches its lower-cased strings for ASCII text or compares
    them with ASCII text, and neither can tell the difference. *)
Fixpoint lower (s : string) : string :=
  match s with
  | EmptyString => EmptyString
  | String c1 rest1 =>
      match rest1 with
      | EmptyString => String (lower_char c1) EmptyString
      | String c2 rest2 =>
          if is_byte c1 196 && is_byte c2 176
          then String "i" (String (ascii_of_nat 204)
                 (String (ascii_of_nat 135) (lower rest2)))
          else
            match rest2 with
            | EmptyString => String (lower_char c1) (lower rest1)
            | String c3 rest3 =>
                if is_byte c1 226 && is_byte c2 132 && is_byte c3 170
                then String "k" (lower rest3)
                else String (lower_char c1) (lower rest1)
            end
      end
  end.

(** The characters [str.isspace] accepts: the ASCII ones, *)
Definition is_space (c : ascii) : bool :=
  let n := nat_of_ascii c in
  ((9 <=? n)%nat && (n <=? 13)%nat) || ((28 <=? n)%nat && (n <=? 32)%nat).

(** U+0085 and U+00A0, of two bytes, *)
Definition is_space2 (c1 c2 : ascii) : bool :=
  is_byte c1 194 && (is_byte c2 133 || is_byte c2 160).

(** and U+1680, U+2000 to U+200A, U+2028, U+2029, U+202F, U+205F and U+3000,
    of three bytes. *)
Definition is_space3 (c1 c2 c3 : ascii) : bool :=
  let n3 := nat_of_ascii c3 in
  (is_byte c1 225 && is_byte c2 154 && is_byte c3 128)
  || (is_byte c1 226 && is_byte c2 128
      && (((128 <=? n3)%nat && (n3 <=? 138)%nat)
          || is_byte c3 168 || is_byte c3 169 || is_byte c3 175))
  || (is_byte c1 226 && is_byte c2 129 && is_byte c3 159)
  || (is_byte c1 227 && is_byte c2 128 && is_byte c3 128).

Section Strip.

(** What counts as a white-space character of one, two and three bytes. *)
Variable space1 : ascii -> bool.
Variable space2 : ascii -> ascii -> bool.
Variable space3 : ascii -> ascii -> ascii -> bool.

(** [s] without the white space it starts with. *)
Fixpoint drop_spaces (s : string) : string :=
  match s with
  | EmptyString => EmptyString
  | String c1 rest1 =>
      if space1 c1 then drop_spaces rest1
      else
        match rest1 with
        | EmptyString => s
        | String c2 rest2 =>
            if space2 c1 c2 then drop_spaces rest2
            else
              match rest2 with
              | EmptyString => s
              | String c3 rest3 =>
                  if space3 c1 c2 c3 then drop_spaces rest3 else s
              end
        end
  end.

End Strip.

Definition string_rev (s : string) : string :=
  string_of_list_ascii (rev (list_ascii_of_string s)).

Definition lstrip (s : string) : string :=
  drop_spaces is_space is_space2 is_space3 s.

(** From the right, the bytes of a character come last byte first. *)
Definition rstrip (s : string) : string :=
  string_rev
    (drop_spaces is_space (fun c1 c2 => is_space2 c2 c1)
       (fun c1 c2 c3 => is_space3 c3 c2 c1) (string_rev s)).

(** [s.strip()] *)
Definition strip (s : string) : string := rstrip (lstrip s).

(** [len(s)]: the characters of [s], which are its bytes but those that
    continue a character (128 to 191). *)
Fixpoint py_len (s : string) : nat :=
  match s with
  | EmptyString => 0
  | String c rest =>
      let n := nat_of_ascii c in
      if (128 <=? n)%nat && (n <=? 191)%nat then py_len rest
      else S (py_len rest)
  end.

(** ** Data model *)

Inductive CrisisLevel : Type :=
  | NONE | LOW | MEDIUM | HIGH | CRITICAL.

Inductive RiskFactor : Type :=
  | SUICIDAL_IDEATION | SELF_HARM | SUBSTANCE_ABUSE | ISOLATION | HOPELESSNESS
  | DEPRESSION | ANXIETY | TRAUMA | RELATIONSHIP_ISSUES | FINANCIAL_STRESS.

Definition CrisisLevel_eqb (a b : CrisisLevel) : bool :=
  match a, b with
  | NONE, NONE | LOW, LOW | MEDIUM, MEDIUM | HIGH, HIGH | CRITICAL, CRITICAL => true
  | _, _ => false
  end.

Definition RiskFactor_eqb (a b : RiskFactor) : bool :=
  match a, b with
  | SUICIDAL_IDEATION, SUICIDAL_IDEATION | SELF_HARM, SELF_HARM
  | SUBSTANCE_ABUSE, SUBSTANCE_ABUSE | ISOLATION, ISOLATION
  | HOPELESSNESS, HOPELESSNESS | DEPRESSION, DEPRESSION | ANXIETY, ANXIETY
  | TRAUMA, TRAUMA | RELATIONSHIP_ISSUES, RELATIONSHIP_ISSUES
  | FINANCIAL_STRESS, FINANCIAL_STRESS => true
  | _, _ => false
  end.

(** [factor in detected_factors] *)
Definition factor_in (f : RiskFactor) (l : list RiskFactor) : bool :=
  existsb (RiskFactor_eqb f) l.

(** [level in levels] *)
Definition level_in (x : CrisisLevel) (l : list CrisisLevel) : bool :=
  existsb (CrisisLevel_eqb x) l.

(** One entry of [safety_resources] as it is handed out: a dict with the
    five keys below. *)
Record ResourceDict : Type := {
  rd_name : string;
  rd_type : string;
  rd_contact : string;
  rd_description : string;
  rd_availability : string
}.

Record SafetyResource : Type := {
  name : string;
  type : string;
  contact : string;
  availability : string;
  description : string;
  country_code : string;
  language : string;
  is_emergency : bool
}.

(** How a call into the database layer ends. *)
Inductive outcome : Type :=
  | Returned
  | Raised (message : string).

(** How a [try] block ends: with a value, or with an exception. *)
Inductive result (X : Type) : Type :=
  | Ok (value : X)
  | Exc (message : string).
Arguments Ok {X} value.
Arguments Exc {X} message.

Section Model.

Context {A : Arith}.
Local Open Scope py_scope.

Record CrisisKeywordPattern : Type := {
  keywords : list string;
  risk_factor : RiskFactor;
  severity_weight : num;
  requires_immediate_action : bool;
  context_modifiers : list string
}.

Record RiskAssessment : Type := {
  user_id : string;
  trigger_content : string;
  crisis_level : CrisisLevel;
  risk_score : num;
  detected_factors : list RiskFactor;
  confidence : num;
  immediate_action_required : bool;
  recommended_interventions : list string;
  safety_resources : list ResourceDict;
  escalation_needed : bool;
  assessment_timestamp : Z
}.

(** ** The pattern catalog: [_initialize_crisis_patterns] *)

Definition suicidal_ideation_pattern : CrisisKeywordPattern := {|
  keywords :=
    ["suicide"; "kill myself"; "end my life"; "want to die";
     "better off dead"; "not worth living"; "take my own life";
     "end it all"; "don't want to be here"; "world without me"];
  risk_factor := SUICIDAL_IDEATION;
  severity_weight := lit 1.0;
  requires_immediate_action := true;
  context_modifiers := ["plan"; "method"; "when"; "how"; "tonight"; "today"]
|}.

Definition self_harm_pattern : CrisisKeywordPattern := {|
  keywords :=
    ["hurt myself"; "cut myself"; "self harm"; "self-harm";
     "cutting"; "burning"; "hitting myself"; "punish myself";
     "deserve pain"; "make it stop"];
  risk_factor := SELF_HARM;
  severity_weight := lit 0.9;
  requires_immediate_action := true;
  context_modifiers := []
|}.

Definition hopelessness_pattern : CrisisKeywordPattern := {|
  keywords :=
    ["hopeless"; "no point"; "pointless"; "give up"; "can't go on";
     "no future"; "nothing matters"; "why bother"; "no way out";
     "trapped"; "stuck forever"];
  risk_factor := HOPELESSNESS;
  severity_weight := lit 0.8;
  requires_immediate_action := false;
  context_modifiers := ["always"; "never"; "forever"; "everyone"; "nothing"]
|}.

Definition depression_pattern : CrisisKeywordPattern := {|
  keywords :=
    ["want to disappear"; "invisible"; "burden to everyone";
     "everyone hates me"; "worthless"; "useless"; "failure";
     "can't do anything right"; "ruined everything"];
  risk_factor := DEPRESSION;
  severity_weight := lit 0.7;
  requires_immediate_action := false;
  context_modifiers := []
|}.

Definition substance_abuse_pattern : CrisisKeywordPattern := {|
  keywords :=
    ["drinking too much"; "can't stop drinking"; "need drugs";
     "overdose"; "too many pills"; "using again"; "relapsed";
     "out of control"; "addiction"];
  risk_factor := SUBSTANCE_ABUSE;
  severity_weight := lit 0.6;
  requires_immediate_action := false;
  context_modifiers := []
|}.

Definition isolation_pattern : CrisisKeywordPattern := {|
  keywords :=
    ["nobody cares"; "all alone"; "no friends"; "isolated";
     "pushing everyone away"; "can't talk to anyone";
     "no one understands"; "abandoned"];
  risk_factor := ISOLATION;
  severity_weight := lit 0.5;
  requires_immediate_action := false;
  context_modifiers := []
|}.

Definition trauma_pattern : CrisisKeywordPattern := {|
  keywords :=
    ["flashbacks"; "nightmares"; "can't forget"; "reliving";
     "traumatized"; "ptsd"; "triggered"; "memories won't stop"];
  risk_factor := TRAUMA;
  severity_weight := lit 0.6;
  requires_immediate_action := false;
  context_modifiers := []
|}.

Definition crisis_patterns : list CrisisKeywordPattern :=
  [suicidal_ideation_pattern; self_harm_pattern; hopelessness_pattern;
   depression_pattern; substance_abuse_pattern; isolation_pattern;
   trauma_pattern].

(** ** Pattern evaluation: [_evaluate_pattern] *)

Definition negation_patterns : list string :=
  ["not"; "don't"; "won't"; "never"; "wouldn't"].

(** The first loop: [(score, keyword_matches)] after one keyword. *)
Definition keyword_step (content : string) (weight : num)
    (st : num * nat) (keyword : string) : num * nat :=
  let '(score, keyword_matches) := st in
  if str_in keyword content
  then (score + weight * lit 0.3, S keyword_matches)
  else (score, keyword_matches).

(** The second loop: [context_bonus] after one modifier. *)
Definition modifier_step (content : string) (context_bonus : num)
    (modifier : string) : num :=
  if str_in modifier content then context_bonus + lit 0.1 else context_bonus.

Definition negation_found (content : string) : bool :=
  existsb (fun neg => str_in neg content) negation_patterns.

Definition _evaluate_pattern (content : string)
    (pattern : CrisisKeywordPattern) : num :=
  let '(score, keyword_matches) :=
    fold_left (keyword_step content (severity_weight pattern))
              (keywords pattern) (lit 0.0, 0%nat) in
  if (keyword_matches =? 0)%nat then lit 0.0
  else
    let score :=
      if (1 <? keyword_matches)%nat
      then score + severity_weight pattern * lit 0.2 else score in
    let context_bonus :=
      fold_left (modifier_step content) (context_modifiers pattern) (lit 0.0) in
    let score := score + pymin context_bonus (severity_weight pattern * lit 0.3) in
    let score := if negation_found content then score * lit 0.7 else score in
    pymin score (lit 1.0).

(** ** Level determination: [_determine_crisis_level] *)

Definition _determine_crisis_level (risk_score : num)
    (detected_factors : list RiskFactor) : CrisisLevel :=
  (* Critical level triggers *)
  if factor_in SUICIDAL_IDEATION detected_factors && (risk_score >? lit 0.8)
  then CRITICAL
  (* High level triggers *)
  else if (risk_score >? lit 0.7)
          || factor_in SUICIDAL_IDEATION detected_factors
          || factor_in SELF_HARM detected_factors
          || (factor_in HOPELESSNESS detected_factors && (risk_score >? lit 0.6))
  then HIGH
  (* Medium level triggers *)
  else if (risk_score >? lit 0.4)
          || (2 <=? List.length detected_factors)%nat
          || factor_in HOPELESSNESS detected_factors
  then MEDIUM
  (* Low level triggers *)
  else if (risk_score >? lit 0.2) || (1 <=? List.length detected_factors)%nat
  then LOW
  else NONE.

(** ** Confidence: [_calculate_confidence] *)

Definition clear_indicators : list string :=
  ["i want to"; "i am going to"; "i plan to"; "i will"].

Definition _calculate_confidence (content : string)
    (detected_factors : list RiskFactor) (risk_score : num) : num :=
  let confidence := lit 0.5 in
  let confidence :=
    if (50 <? py_len (strip content))%nat
    then confidence + lit 0.1 else confidence in
  let confidence :=
    if (100 <? py_len (strip content))%nat
    then confidence + lit 0.1 else confidence in
  let confidence :=
    confidence + pymin (of_nat (List.length detected_factors) * lit 0.15) (lit 0.3) in
  let confidence := confidence + risk_score * lit 0.2 in
  let confidence :=
    if existsb (fun indicator => str_in indicator (lower content)) clear_indicators
    then confidence + lit 0.2 else confidence in
  pymin confidence (lit 1.0).

(** ** Recommendations: [_generate_interventions] *)

Definition _generate_interventions (crisis_level : CrisisLevel)
    (detected_factors : list RiskFactor) : list string :=
  let interventions : list string := [] in
  let interventions :=
    match crisis_level with
    | CRITICAL =>
        interventions ++
        ["Immediate professional intervention required";
         "Contact emergency services (911) if in immediate danger";
         "Call 988 Suicide & Crisis Lifeline immediately";
         "Do not leave person alone";
         "Remove any means of self-harm"]
    | HIGH =>
        interventions ++
        ["Contact crisis support immediately: 988";
         "Reach out to a trusted person";
         "Consider emergency room if feeling unsafe";
         "Remove access to means of harm";
         "Create safety plan"]
    | MEDIUM =>
        interventions ++
        ["Connect with mental health professional";
         "Use crisis text line: Text HOME to 741741";
         "Practice grounding techniques";
         "Reach out to support network";
         "Schedule therapy appointment"]
    | LOW =>
        interventions ++
        ["Monitor mood closely";
         "Practice self-care activities";
         "Consider counseling";
         "Use stress reduction techniques";
         "Stay connected with others"]
    | NONE => interventions
    end in
  (* Factor-specific interventions *)
  let interventions :=
    if factor_in ISOLATION detected_factors
    then interventions ++ ["Focus on social connection and support"]
    else interventions in
  let interventions :=
    if factor_in SUBSTANCE_ABUSE detected_factors
    then interventions ++ ["Consider addiction treatment resources"]
    else interventions in
  let interventions :=
    if factor_in TRAUMA detected_factors
    then interventions ++ ["Seek trauma-informed therapy"]
    else interventions in
  firstn 5 interventions.

(** ** Safety resources: [_initialize_safety_resources], [_get_relevant_resources] *)

Definition resource (name type contact availability description country_code : string)
    (is_emergency : bool) : SafetyResource :=
  {| name := name; type := type; contact := contact;
     availability := availability; description := description;
     country_code := country_code; language := "en";
     is_emergency := is_emergency |}.

Definition safety_resource_catalog : list SafetyResource :=
  [resource "988 Suicide & Crisis Lifeline" "hotline" "988" "24/7"
     "Free, confidential crisis counseling" "US" true;
   resource "Crisis Text Line" "text" "Text HOME to 741741" "24/7"
     "Crisis counseling via text" "US" true;
   resource "Samaritans" "hotline" "116 123" "24/7"
     "Free support for emotional distress" "UK" true;
   resource "Psychology Today Therapist Finder" "website"
     "https://www.psychologytoday.com/us/therapists" "24/7 online"
     "Find mental health professionals near you" "US" false;
   resource "BetterHelp Online Therapy" "website" "https://www.betterhelp.com"
     "24/7 online" "Professional online counseling" "US" false;
   resource "National Suicide Prevention Lifeline" "website"
     "https://suicidepreventionlifeline.org" "24/7 online"
     "Resources and support information" "US" false;
   resource "Mind (UK)" "website" "https://www.mind.org.uk" "24/7 online"
     "Mental health information and support" "UK" false;
   resource "MY3 Support Network App" "app" "Download from app store"
     "Always available" "Create personal safety plan" "US" false;
   resource "Safety Plan App" "app" "Download from app store"
     "Always available" "Evidence-based safety planning" "US" false].

Definition CrisisLevel_value (l : CrisisLevel) : string :=
  match l with
  | NONE => "none" | LOW => "low" | MEDIUM => "medium"
  | HIGH => "high" | CRITICAL => "critical"
  end.

Definition resource_dict (r : SafetyResource) : ResourceDict :=
  {| rd_name := name r; rd_type := type r; rd_contact := contact r;
     rd_description := description r; rd_availability := availability r |}.

Definition _get_relevant_resources (crisis_level : CrisisLevel)
    (detected_factors : list RiskFactor) : list ResourceDict :=
  let resources : list ResourceDict := [] in
  let resources :=
    if negb (CrisisLevel_value crisis_level =? "none")%string
       && negb (CrisisLevel_value crisis_level =? "low")%string
    then
      let emergency_resources := filter is_emergency safety_resource_catalog in
      resources ++ map resource_dict (firstn 3 emergency_resources)
    else resources in
  let general_resources :=
    filter (fun r => negb (is_emergency r)) safety_resource_catalog in
  resources ++ map resource_dict (firstn 2 general_resources).

(** ** Persistence *)

(** The database session as the service sees it.  [insert_event] is the [try]
    block of [_store_crisis_event] ([int(user_id)], building the row, [add],
    [commit]); [update_latest_event] is the [try] block of
    [_update_crisis_event_escalation]; [rollback] is [db.session.rollback()],
    which both handlers call. *)
Record EventStore : Type := {
  insert_event : RiskAssessment -> string -> outcome;
  update_latest_event : string -> list string -> outcome;
  rollback : outcome
}.

Definition _store_crisis_event (db : EventStore) (assessment : RiskAssessment)
    (trigger_source : string) : outcome :=
  match insert_event db assessment trigger_source with
  | Returned => Returned
  | Raised _ => rollback db
  end.

Definition _update_crisis_event_escalation (db : EventStore) (user_id : string)
    (actions_taken : list string) : outcome :=
  match update_latest_event db user_id actions_taken with
  | Returned => Returned
  | Raised _ => rollback db
  end.

(** ** Assessment: [assess_crisis_risk] *)

Definition _create_safe_default_assessment (now : Z) (user_id content : string)
    : RiskAssessment :=
  {| user_id := user_id;
     trigger_content := content;
     crisis_level := NONE;
     risk_score := lit 0.0;
     detected_factors := [];
     confidence := lit 0.0;
     immediate_action_required := false;
     recommended_interventions := ["Contact support if you need help"];
     safety_resources :=
       [{| rd_name := "988 Suicide & Crisis Lifeline"; rd_type := "hotline";
           rd_contact := "988"; rd_description := "24/7 crisis support";
           rd_availability := "24/7" |}];
     escalation_needed := false;
     assessment_timestamp := now |}.

(** The body of the pattern loop; the state is
    [(detected_factors, risk_score, immediate_action)]. *)
Definition pattern_step (content_lower : string)
    (st : list RiskFactor * num * bool) (pattern : CrisisKeywordPattern)
    : list RiskFactor * num * bool :=
  let '(detected_factors, risk_score, immediate_action) := st in
  let pattern_score := _evaluate_pattern content_lower pattern in
  if pattern_score >? of_nat 0
  then (detected_factors ++ [risk_factor pattern],
        risk_score + pattern_score,
        if requires_immediate_action pattern && (pattern_score >? lit 0.7)
        then true else immediate_action)
  else st.

Definition assess_try (db : EventStore) (now : Z)
    (user_id content trigger_source : string) : result RiskAssessment :=
  let content_lower := lower content in
  let '(detected_factors, risk_score, immediate_action) :=
    fold_left (pattern_step content_lower) crisis_patterns ([], lit 0.0, false) in
  let risk_score := pymin risk_score (lit 1.0) in
  let crisis_level := _determine_crisis_level risk_score detected_factors in
  let confidence := _calculate_confidence content detected_factors risk_score in
  let interventions := _generate_interventions crisis_level detected_factors in
  let safety_resources := _get_relevant_resources crisis_level detected_factors in
  let escalation_needed :=
    level_in crisis_level [HIGH; CRITICAL]
    || immediate_action
    || (risk_score >? lit 0.8) in
  let assessment :=
    {| user_id := user_id;
       trigger_content := content;
       crisis_level := crisis_level;
       risk_score := risk_score;
       detected_factors := detected_factors;
       confidence := confidence;
       immediate_action_required := immediate_action;
       recommended_interventions := interventions;
       safety_resources := safety_resources;
       escalation_needed := escalation_needed;
       assessment_timestamp := now |} in
  if negb (CrisisLevel_eqb crisis_level NONE)
  then match _store_crisis_event db assessment trigger_source with
       | Returned => Ok assessment
       | Raised e => Exc e
       end
  else Ok assessment.

Definition assess_crisis_risk (db : EventStore) (now : Z)
    (user_id content trigger_source : string) : RiskAssessment :=
  match assess_try db now user_id content trigger_source with
  | Ok assessment => assessment
  | Exc _ => _create_safe_default_assessment now user_id content
  end.

(** ** Escalation: [escalate_crisis] *)

(** The dict [escalate_crisis] returns; a key that is absent is [None]. *)
Record EscalationResult : Type := {
  escalated : bool;
  timestamp : option Z;
  escalation_type : option string;
  actions_taken : option (list string);
  next_steps : option (list string);
  error : option string
}.

Definition escalate_crisis (db : EventStore) (now : Z)
    (assessment : RiskAssessment) (escalation_type : string)
    : EscalationResult :=
  let actions_taken : list string := [] in
  let next_steps : list string := [] in
  let '(actions_taken, next_steps) :=
    if CrisisLevel_eqb (crisis_level assessment) CRITICAL
    then (actions_taken ++
            ["Crisis team notified immediately";
             "Emergency contact attempted";
             "Professional intervention initiated";
             "User flagged for immediate follow-up"],
          next_steps ++
            ["Emergency services may be contacted";
             "Immediate professional assessment scheduled";
             "Family/emergency contacts will be notified"])
    else if CrisisLevel_eqb (crisis_level assessment) HIGH
    then (actions_taken ++
            ["Mental health professional notified";
             "Crisis counselor assigned";
             "Enhanced monitoring activated"],
          next_steps ++
            ["Professional will contact within 2 hours";
             "Safety plan development scheduled";
             "Follow-up appointment arranged"])
    else (actions_taken, next_steps) in
  match _update_crisis_event_escalation db (user_id assessment) actions_taken with
  | Returned =>
      {| escalated := true;
         timestamp := Some now;
         escalation_type := Some escalation_type;
         actions_taken := Some actions_taken;
         next_steps := Some next_steps;
         error := None |}
  | Raised e =>
      {| escalated := false;
         timestamp := None;
         escalation_type := None;
         actions_taken := None;
         next_steps := None;
         error := Some e |}
  end.

End Model.

(** ** Definitions that follow the specification's wording

    These are not part of the program: they restate, row by row, what the
    specification promises, and are compared with the program below. *)

Section SpecificationSide.

Context {A : Arith}.
Local Open Scope py_scope.

(** Section 4.1, "Crisis-level decision table": one entry per row, in the
    order of the table; the last row ("otherwise") is the default of
    [first_match]. *)
Definition spec_decision_table
    : list ((num -> list RiskFactor -> bool) * CrisisLevel) :=
  [ (fun risk_score factors =>
       factor_in SUICIDAL_IDEATION factors && (risk_score >? lit 0.8),
     CRITICAL);
    (fun risk_score factors =>
       (risk_score >? lit 0.7)
       || factor_in SUICIDAL_IDEATION factors
       || factor_in SELF_HARM factors
       || (factor_in HOPELESSNESS factors && (risk_score >? lit 0.6)),
     HIGH);
    (fun risk_score factors =>
       (risk_score >? lit 0.4)
       || (2 <=? List.length factors)%nat
       || factor_in HOPELESSNESS factors,
     MEDIUM);
    (fun risk_score factors =>
       (risk_score >? lit 0.2) || (1 <=? List.length factors)%nat,
     LOW) ].

(** "evaluated top-down, first match wins" *)
Fixpoint first_match
    (rows : list ((num -> list RiskFactor -> bool) * CrisisLevel))
    (risk_score : num) (factors : list RiskFactor) : CrisisLevel :=
  match rows with
  | [] => NONE
  | (condition, level) :: below =>
      if condition risk_score factors then level
      else first_match below risk_score factors
  end.

End SpecificationSide.

(** Section 4.2: the level-specific base list. *)
Definition spec_base_interventions (level : CrisisLevel) : list string :=
  match level with
  | CRITICAL =>
      ["Immediate professional intervention required";
       "Contact emergency services (911) if in immediate danger";
       "Call 988 Suicide & Crisis Lifeline immediately";
       "Do not leave person alone";
       "Remove any means of self-harm"]
  | HIGH =>
      ["Contact crisis support immediately: 988";
       "Reach out to a trusted person";
       "Consider emergency room if feeling unsafe";
       "Remove access to means of harm";
       "Create safety plan"]
  | MEDIUM =>
      ["Connect with mental health professional";
       "Use crisis text line: Text HOME to 741741";
       "Practice grounding techniques";
       "Reach out to support network";
       "Schedule therapy appointment"]
  | LOW =>
      ["Monitor mood closely";
       "Practice self-care activities";
       "Consider counseling";
       "Use stress reduction techniques";
       "Stay connected with others"]
  | NONE => []
  end.

(** Section 4.2: the factor-specific additions, in the order isolation,
    substance abuse, trauma. *)
Definition spec_factor_additions (factors : list RiskFactor) : list string :=
  (if factor_in ISOLATION factors
   then ["Focus on social connection and support"] else [])
  ++ (if factor_in SUBSTANCE_ABUSE factors
      then ["Consider addiction treatment resources"] else [])
  ++ (if factor_in TRAUMA factors
      then ["Seek trauma-informed therapy"] else []).

(** ** Auxiliary definitions

    [_evaluate_pattern] reads the content only through three numbers: how
    many keywords occur in it, how many context modifiers occur in it, and
    whether a negation term occurs in it.  [score_of_counts] is the score as
    a function of these. *)

Section Auxiliary.

Context {A : Arith}.
Local Open Scope py_scope.

(** How many of [terms] occur in [content]. *)
Definition matches (content : string) (terms : list string) : nat :=
  List.length (filter (fun term => str_in term content) terms).

(** [start], after [x] was added to it [n] times. *)
Fixpoint add_times (n : nat) (x start : num) : num :=
  match n with
  | O => start
  | S n' => add_times n' x (start + x)
  end.

Definition score_of_counts (weight : num) (keyword_matches modifier_matches : nat)
    (negated : bool) : num :=
  if (keyword_matches =? 0)%nat then lit 0.0
  else
    let score := add_times keyword_matches (weight * lit 0.3) (lit 0.0) in
    let score :=
      if (1 <? keyword_matches)%nat then score + weight * lit 0.2 else score in
    let context_bonus := add_times modifier_matches (lit 0.1) (lit 0.0) in
    let score := score + pymin context_bonus (weight * lit 0.3) in
    let score := if negated then score * lit 0.7 else score in
    pymin score (lit 1.0).

(** *** Checks over all counts *)

(** The counts from 0 to [n]. *)
Definition upto (n : nat) : list nat := seq 0 (S n).

(** Whether [check] accepts every triple of counts that some content can
    produce for [pattern]: at most as many matches as there are terms. *)
Definition counts_satisfy
    (check : CrisisKeywordPattern -> nat -> nat -> bool -> bool)
    (pattern : CrisisKeywordPattern) : bool :=
  forallb (fun k =>
    forallb (fun j => check pattern k j true && check pattern k j false)
            (upto (List.length (context_modifiers pattern))))
    (upto (List.length (keywords pattern))).

(** Whether no keyword of the catalog occurs in [content]. *)
Definition no_keyword_occurs (content : string) : bool :=
  forallb (fun pattern =>
             forallb (fun keyword => negb (str_in keyword content))
                     (keywords pattern))
          crisis_patterns.

(** The bound of a pattern score, as a check on a triple of counts:
    at most 1.0, and at most the weight for at most one keyword. *)
Definition bound_check (leb : num -> num -> bool)
    (pattern : CrisisKeywordPattern) (k j : nat) (negated : bool) : bool :=
  let score := score_of_counts (severity_weight pattern) k j negated in
  leb score (lit 1.0)
  && (if (k <=? 1)%nat then leb score (severity_weight pattern) else true).

(** Negation with a single keyword, as a check on a triple of counts: the
    negated score is the plain score times 0.7, positive, and below the
    plain score. *)
Definition dampening_check (eqb : num -> num -> bool)
    (pattern : CrisisKeywordPattern) (k j : nat) (negated : bool) : bool :=
  if (k =? 1)%nat
  then
    let plain := score_of_counts (severity_weight pattern) 1 j false in
    let dampened := score_of_counts (severity_weight pattern) 1 j true in
    eqb dampened (plain * lit 0.7)
    && (dampened >? of_nat 0)
    && (dampened <? plain)
  else true.

(** A single keyword never reaches the score an immediate action asks
    for, as a check on a triple of counts. *)
Definition single_keyword_check
    (pattern : CrisisKeywordPattern) (k j : nat) (negated : bool) : bool :=
  if (k =? 1)%nat
  then negb (score_of_counts (severity_weight pattern) k j negated >? lit 0.7)
  else true.

(** *** Inputs of the examples *)

(** A database that is up, and one that is down: every call raises. *)
Definition store_up : EventStore := {|
  insert_event := fun _ _ => Returned;
  update_latest_event := fun _ _ => Returned;
  rollback := Returned
|}.

Definition store_down : EventStore := {|
  insert_event := fun _ _ => Raised "database is unavailable";
  update_latest_event := fun _ _ => Raised "database is unavailable";
  rollback := Raised "database is unavailable"
|}.

(** The message of the specification's critical scenario. *)
Definition plan_tonight : string := "I have a plan to end my life tonight".

(** The second message of the repository's critical-detection test
    ([test_critical_crisis_detection]). *)
Definition plan_message : string := "I have a plan to end my life".

(** A message in which three keywords of the self-harm pattern occur, and
    one in which a single keyword occurs. *)
Definition three_self_harm_keywords : string :=
  "i hurt myself, i cut myself, self harm again".

Definition one_self_harm_keyword : string := "i want to hurt myself".

(** A message with the negation term "never", which is also a context
    modifier of the hopelessness pattern, and the same message with the term
    taken out. *)
Definition never_hopeless : string := "i will never feel hopeless".

Definition never_taken_out : string := "i will  feel hopeless".

(** A message whose negation term is part of the keyword that occurs in it,
    and the same message with the term taken out. *)
Definition not_worth_living : string := "life is not worth living".

Definition not_taken_out : string := "life is  worth living".

(** A negated message and a plain one that differ in nothing else the
    hopelessness pattern looks at. *)
Definition not_hopeless : string := "i am not hopeless".

Definition plainly_hopeless : string := "i am hopeless".

(** U+212A KELVIN SIGN, then "ill myself": [str.lower] gives
    "kill myself". *)
Definition kelvin_ill_myself : string :=
  String (ascii_of_nat 226) (String (ascii_of_nat 132)
    (String (ascii_of_nat 170) "ill myself")).

(** The two messages of the repository's confidence test
    ([test_confidence_calculation]). *)
Definition short_message : string := "Short message".

Definition long_message : string :=
  "This is a much longer message that provides more context and detail about the user's situation".

(** The pattern of the repository's pattern test
    ([test_pattern_evaluation]). *)
Definition test_pattern : CrisisKeywordPattern := {|
  keywords := ["test_keyword"; "another_test"];
  risk_factor := DEPRESSION;
  severity_weight := lit 0.8;
  requires_immediate_action := false;
  context_modifiers := ["always"; "never"]
|}.


End Auxiliary.

(** ** Reachable risk scores in binary64

    In binary64 the sums that the pattern loop of [assess_crisis_risk] can
    reach are few enough to be listed: every pattern contributes one of the
    scores [score_of_counts] gives for its counts. *)

Section Reachable.

Local Open Scope py_scope.

(** Merges two lists of floats, keeping one of two heads that are the same
    float; the result is in reverse order, on top of [acc]. *)
Fixpoint merge_rev (fuel : nat) (l1 l2 acc : list PrimFloat.float) : list PrimFloat.float :=
  match fuel with
  | O => rev_append l1 (rev_append l2 acc)
  | S fuel' =>
    match l1, l2 with
    | [], _ => rev_append l2 acc
    | _, [] => rev_append l1 acc
    | x :: l1', y :: l2' =>
        if PrimFloat.ltb x y then merge_rev fuel' l1' l2 (x :: acc)
        else if PrimFloat.ltb y x then merge_rev fuel' l1 l2' (y :: acc)
        else if PrimFloat.Leibniz.eqb x y then merge_rev fuel' l1' l2' (x :: acc)
        else merge_rev fuel' l1' l2' (y :: x :: acc)
    end
  end.

(** The union of two lists; of two ascending lists, without repeats. *)
Definition merge_floats (l1 l2 : list PrimFloat.float) : list PrimFloat.float :=
  rev_append (merge_rev (List.length l1 + List.length l2) l1 l2 []) [].

(** [v] added to every sum. *)
Fixpoint add_all_rev (v : PrimFloat.float) (sums acc : list PrimFloat.float) : list PrimFloat.float :=
  match sums with
  | [] => acc
  | s :: sums' => add_all_rev v sums' (PrimFloat.add s v :: acc)
  end.

Definition add_all (v : PrimFloat.float) (sums : list PrimFloat.float) : list PrimFloat.float :=
  rev_append (add_all_rev v sums []) [].

(** The scores a pattern can give, for a content with or without negation. *)
Definition pattern_scores (p : CrisisKeywordPattern (A := binary64)) (neg : bool) : list PrimFloat.float :=
  flat_map (fun k => map (fun j => score_of_counts (severity_weight p) k j neg)
                         (upto (List.length (context_modifiers p))))
           (upto (List.length (keywords p))).

(** The sums after one more pattern: the old ones, and each of them plus
    each positive score of the pattern. *)
Definition reach_step (neg : bool) (sums : list PrimFloat.float) (p : CrisisKeywordPattern (A := binary64)) : list PrimFloat.float :=
  fold_left (fun acc v => if PrimFloat.ltb (float_of_Z 0) v
                          then merge_floats acc (add_all v sums)
                          else acc)
            (pattern_scores p neg) sums.

(** The values of [risk_score] at the end of the pattern loop. *)
Definition reachable_sums (neg : bool) : list PrimFloat.float :=
  fold_left (reach_step neg) crisis_patterns [float_of_Q 0.0].

(** The same, clamped: the values of [risk_score] in an assessment. *)
Definition reachable_risk_scores (neg : bool) : list PrimFloat.float :=
  fold_left (fun acc s => merge_floats acc [pymin (A := binary64) s (lit 1.0)])
            (reachable_sums neg) [].

(** [_calculate_confidence], with what it reads from the content and from
    the factors given as flags and a count. *)
Definition confidence_of (over50 over100 : bool) (n : nat) (risk_score : PrimFloat.float) (clear : bool) : PrimFloat.float :=
  let confidence := lit (Arith := binary64) 0.5 in
  let confidence := if over50 then confidence + lit 0.1 else confidence in
  let confidence := if over100 then confidence + lit 0.1 else confidence in
  let confidence := confidence + pymin (of_nat n * lit 0.15) (lit 0.3) in
  let confidence := confidence + risk_score * lit 0.2 in
  let confidence := if clear then confidence + lit 0.2 else confidence in
  pymin confidence (lit 1.0).

Definition bools : list bool := [true; false].

(** Whether the confidence lies in [0.5, 1.0] for this risk score, whatever
    the content and for up to seven factors. *)
Definition confidence_in_range (r : PrimFloat.float) : bool :=
  forallb (fun n =>
    forallb (fun b1 => forallb (fun b2 => forallb (fun b3 =>
      let c := confidence_of b1 b2 n r b3 in
      PrimFloat.leb (lit 0.5) c && PrimFloat.leb c (lit 1.0)) bools) bools) bools)
    (upto 7).

(** Whether a risk score lies in [0.0, 1.0]. *)
Definition risk_in_range (r : PrimFloat.float) : bool :=
  PrimFloat.leb (lit 0.0) r && PrimFloat.leb r (lit 1.0).

(** Every value of [risk_score] in an assessment, in ascending order. *)
Definition every_risk_score : list PrimFloat.float :=
  merge_floats (reachable_risk_scores true) (reachable_risk_scores false).

(** Whether the confidence at risk score [r'] is at least the one at [r],
    whatever the content and for each number of factors up to ten. *)
Definition confidence_le (r r' : PrimFloat.float) : bool :=
  forallb (fun n =>
    forallb (fun b1 => forallb (fun b2 => forallb (fun b3 =>
      PrimFloat.leb (confidence_of b1 b2 n r b3)
                    (confidence_of b1 b2 n r' b3)) bools) bools) bools)
    (upto 10).

(** Whether, at risk score [r], the confidence for [n'] factors is at least
    the one for [n <= n'] factors and at most 1.0, whatever the content and
    up to ten factors. *)
Definition confidence_grows_with_factors (r : PrimFloat.float) : bool :=
  forallb (fun n => forallb (fun n' =>
    negb (n <=? n')%nat
    || forallb (fun b1 => forallb (fun b2 => forallb (fun b3 =>
         PrimFloat.leb (confidence_of b1 b2 n r b3)
                       (confidence_of b1 b2 n' r b3)
         && PrimFloat.leb (confidence_of b1 b2 n' r b3) (lit 1.0))
         bools) bools) bools)
    (upto 10)) (upto 10).

(** Whether the risk scores of [l] ascend strictly and the confidence
    ascends with them. *)
Fixpoint ascending_with_confidence (l : list PrimFloat.float) : bool :=
  match l with
  | [] => true
  | r :: rest =>
      confidence_grows_with_factors r
      && match rest with
         | [] => true
         | r' :: _ => PrimFloat.ltb r r' && confidence_le r r'
         end
      && ascending_with_confidence rest
  end.

End Reachable.

(** ** Further auxiliary definitions *)

Section FurtherAuxiliary.

Context {A : Arith}.
Local Open Scope py_scope.

(** Whether a keyword of the pattern occurs in [content]. *)
Definition keyword_occurs (content : string) (pattern : CrisisKeywordPattern)
    : bool :=
  existsb (fun keyword => str_in keyword content) (keywords pattern).

(** A pattern scores above 0 exactly when one of its keywords matched, as a
    check on a triple of counts. *)
Definition positive_check
    (pattern : CrisisKeywordPattern) (k j : nat) (negated : bool) : bool :=
  Bool.eqb (score_of_counts (severity_weight pattern) k j negated >? of_nat 0)
           (1 <=? k)%nat.

(** A database whose writes fail and whose rollback works. *)
Definition store_read_only : EventStore := {|
  insert_event := fun _ _ => Raised "attempt to write a readonly database";
  update_latest_event :=
    fun _ _ => Raised "attempt to write a readonly database";
  rollback := Returned
|}.

(** The declaration order of [CrisisLevel], as a number. *)
Definition level_rank (level : CrisisLevel) : nat :=
  match level with
  | NONE => 0 | LOW => 1 | MEDIUM => 2 | HIGH => 3 | CRITICAL => 4
  end.

End FurtherAuxiliary.


(** * The routes that call the service *)

(** ** Enum values: [CrisisLevel(value)] and [factor.value] *)

(** [CrisisLevel(value)]; [None] stands for the [ValueError]. *)
Definition CrisisLevel_of_value (value : string) : option CrisisLevel :=
  if (value =? "none")%string then Some NONE
  else if (value =? "low")%string then Some LOW
  else if (value =? "medium")%string then Some MEDIUM
  else if (value =? "high")%string then Some HIGH
  else if (value =? "critical")%string then Some CRITICAL
  else None.

Definition RiskFactor_value (f : RiskFactor) : string :=
  match f with
  | SUICIDAL_IDEATION => "suicidal_ideation"
  | SELF_HARM => "self_harm"
  | SUBSTANCE_ABUSE => "substance_abuse"
  | ISOLATION => "isolation"
  | HOPELESSNESS => "hopelessness"
  | DEPRESSION => "depression"
  | ANXIETY => "anxiety"
  | TRAUMA => "trauma"
  | RELATIONSHIP_ISSUES => "relationship_issues"
  | FINANCIAL_STRESS => "financial_stress"
  end.

(** ** Decoded JSON: what [request.get_json()] returns *)





(** ** [POST /escalate]: [routes/crisis_routes.py] *)



Section EscalateRoute.

Context {A : Arith}.
Local Open Scope py_scope.


End EscalateRoute.

(** ** [GET /resources]: [routes/crisis_routes.py] *)









(** ** [POST /chat]: [routes/conversation_routes.py] *)

Section ChatRoute.

Context {A : Arith}.
Local Open Scope py_scope.

(** [round(x, 3)] *)
Variable round3 : num -> num.

(** The [ai_response] dict; a key a branch does not set is [None]. *)
Record AiResponse : Type := {
  ai_text : string;
  ai_crisis_level : string;
  ai_confidence : num;
  ai_suggested_actions : list string;
  ai_conversation_tags : list string;
  ai_safety_resources : option (list ResourceDict);
  ai_risk_factors : option (list string);
  ai_escalation_needed : option bool
}.

(** The [crisis_keywords] of [_generate_mock_response]. *)
Definition mock_crisis_keywords : list string :=
  ["suicide"; "kill myself"; "end my life"; "want to die"; "hurt myself";
   "self harm"].

Definition _generate_mock_response (message_content : string) : AiResponse :=
  let message_lower := lower message_content in
  (* Crisis detection *)
  let crisis_keywords := mock_crisis_keywords in
  let is_crisis :=
    existsb (fun keyword => str_in keyword message_lower) crisis_keywords in
  if is_crisis then
    {| ai_text := "I'm really concerned about what you're sharing. Please consider reaching out to a crisis hotline: 988 (US). Your safety is important.";
       ai_crisis_level := "high";
       ai_confidence := lit 0.9;
       ai_suggested_actions :=
         ["Contact crisis hotline: 988"; "Reach out to someone you trust"];
       ai_conversation_tags := ["crisis"; "safety_concern"];
       ai_safety_resources := None;
       ai_risk_factors := None;
       ai_escalation_needed := None |}
  (* Check for anxiety *)
  else if existsb (fun word => str_in word message_lower)
            ["anxious"; "anxiety"; "worried"] then
    {| ai_text := "I understand you're feeling anxious. Can you tell me more about what's causing these feelings?";
       ai_crisis_level := "none";
       ai_confidence := lit 0.8;
       ai_suggested_actions :=
         ["Practice deep breathing"; "Try grounding techniques"];
       ai_conversation_tags := ["anxiety"; "support"];
       ai_safety_resources := None;
       ai_risk_factors := None;
       ai_escalation_needed := None |}
  (* Check for sadness *)
  else if existsb (fun word => str_in word message_lower)
            ["sad"; "depressed"; "down"] then
    {| ai_text := "I hear that you're feeling sad. Your feelings are valid. Would you like to share what's on your mind?";
       ai_crisis_level := "none";
       ai_confidence := lit 0.8;
       ai_suggested_actions := ["Self-care activity"; "Reach out to a friend"];
       ai_conversation_tags := ["sadness"; "emotional_support"];
       ai_safety_resources := None;
       ai_risk_factors := None;
       ai_escalation_needed := None |}
  (* Default response *)
  else
    {| ai_text := "Thank you for sharing. I'm here to listen and support you. How are you feeling today?";
       ai_crisis_level := "none";
       ai_confidence := lit 0.6;
       ai_suggested_actions := ["Continue sharing"; "Take your time"];
       ai_conversation_tags := ["general_support"];
       ai_safety_resources := None;
       ai_risk_factors := None;
       ai_escalation_needed := None |}.

Definition _generate_crisis_response (assessment : RiskAssessment) : string :=
  match crisis_level assessment with
  | CRITICAL =>
      "I'm very concerned about what you're sharing. Your safety is the top priority right now. "
      ++ "Please contact emergency services (911) immediately if you're in immediate danger, or call "
      ++ "the 988 Suicide & Crisis Lifeline. You don't have to go through this alone - help is available."
  | HIGH =>
      "I'm really concerned about you. What you're experiencing sounds very difficult. "
      ++ "Please consider reaching out to the 988 Suicide & Crisis Lifeline (call or text 988) "
      ++ "or contact a trusted person right away. Your safety and wellbeing matter."
  | MEDIUM =>
      "I hear that you're going through a difficult time. It takes courage to share these feelings. "
      ++ "Consider reaching out to a mental health professional or using the Crisis Text Line "
      ++ "(text HOME to 741741). You deserve support during this challenging time."
  | LOW =>
      "Thank you for sharing what you're experiencing. It's important to acknowledge these feelings. "
      ++ "If things feel overwhelming, remember that support is available. Consider talking to someone "
      ++ "you trust or a mental health professional."
  | NONE =>
      "Thank you for sharing. I'm here to listen and support you. How are you feeling today?"
  end%string.

(** The [ai_response] that [chat] computes for a message that is a string:
    the crisis assessment when the service was imported, then the crisis
    response or the mock one.  [assess_crisis_risk] raises nothing, so the
    [except] around the call is never entered. *)
Definition chat_ai_response (HAS_CRISIS_SERVICE : bool) (db : EventStore)
    (now : Z) (user_id message_content : string) : AiResponse :=
  (* Perform crisis assessment if service is available *)
  let crisis_assessment :=
    if HAS_CRISIS_SERVICE
    then Some (assess_crisis_risk db now user_id message_content "chat")
    else None in
  (* Generate AI response based on crisis assessment or fallback to mock *)
  match crisis_assessment with
  | Some crisis_assessment =>
      if negb (CrisisLevel_eqb (crisis_level crisis_assessment) NONE)
      then
        {| ai_text := _generate_crisis_response crisis_assessment;
           ai_crisis_level :=
             CrisisLevel_value (crisis_level crisis_assessment);
           ai_confidence := round3 (confidence crisis_assessment);
           ai_suggested_actions :=
             recommended_interventions crisis_assessment;
           ai_conversation_tags := ["crisis_detected"; "safety_support"];
           ai_safety_resources := Some (safety_resources crisis_assessment);
           ai_risk_factors :=
             Some (map RiskFactor_value (detected_factors crisis_assessment));
           ai_escalation_needed :=
             Some (escalation_needed crisis_assessment) |}
      else _generate_mock_response message_content
  | None => _generate_mock_response message_content
  end.

End ChatRoute.

(** * Properties *)

(** ** Level determination *)

(** C1. For every risk score and every list of detected factors, and in
    either arithmetic, [_determine_crisis_level] returns the level of the
    first row of the specification's decision table whose condition holds,
    reading the table from the top, and NONE when no row matches. *)
Theorem determine_crisis_level_is_first_match :
  forall (A : Arith) (risk_score : num) (factors : list RiskFactor),
    _determine_crisis_level risk_score factors
    = first_match spec_decision_table risk_score factors.
Proof.
  intros A r fs.
  unfold _determine_crisis_level, spec_decision_table.
  cbn [first_match].
  destruct (factor_in SUICIDAL_IDEATION fs && ltb (lit 0.8) r); [reflexivity|].
  destruct (ltb (lit 0.7) r || factor_in SUICIDAL_IDEATION fs
            || factor_in SELF_HARM fs
            || factor_in HOPELESSNESS fs && ltb (lit 0.6) r); [reflexivity|].
  destruct (ltb (lit 0.4) r || (2 <=? List.length fs)%nat
            || factor_in HOPELESSNESS fs); [reflexivity|].
  destruct (ltb (lit 0.2) r || (1 <=? List.length fs)%nat); reflexivity.
Qed.

(** ** Recommendations *)

(** C7. For every crisis level and every list of detected factors, the
    recommended interventions are the first five elements of the level's base
    list followed by the factor-specific additions; hence there are at most
    five of them, and the base list is kept whole: truncation only ever drops
    factor-specific additions. *)
Theorem generate_interventions_first_five :
  forall (level : CrisisLevel) (factors : list RiskFactor),
    _generate_interventions level factors
    = firstn 5 (spec_base_interventions level ++ spec_factor_additions factors)
    /\ (List.length (_generate_interventions level factors) <= 5)%nat
    /\ exists additions,
         _generate_interventions level factors
         = spec_base_interventions level ++ additions.
Proof.
  intros level factors.
  unfold _generate_interventions, spec_factor_additions.
  destruct (factor_in ISOLATION factors),
           (factor_in SUBSTANCE_ABUSE factors),
           (factor_in TRAUMA factors), level;
    cbn; (split; [reflexivity | split; [lia | eexists; reflexivity]]).
Qed.

(** ** Escalation *)

Section Escalation.

Context {A : Arith}.

Lemma escalate_crisis_raised :
  forall (db : EventStore) (now : Z) (a : RiskAssessment) (etype e : string),
    (forall actions,
        _update_crisis_event_escalation db (user_id a) actions = Raised e) ->
    escalate_crisis db now a etype
    = {| escalated := false; timestamp := None; escalation_type := None;
         actions_taken := None; next_steps := None; error := Some e |}.
Proof.
  intros db now a etype e H. unfold escalate_crisis.
  destruct (CrisisLevel_eqb (crisis_level a) CRITICAL);
    [| destruct (CrisisLevel_eqb (crisis_level a) HIGH)];
    rewrite H; reflexivity.
Qed.

End Escalation.




(** ** Assessment: the error path *)

(** C6. [assess_crisis_risk] always returns an assessment.  Either its [try]
    block ran to the end and the assessment is the one it built, or a step
    raised and the assessment is the safe default: level NONE, score 0.0, no
    escalation, and the 988 lifeline as the only resource. *)
Theorem assess_crisis_risk_never_propagates :
  forall (A : Arith) (db : EventStore) (now : Z)
         (user_id content trigger_source : string),
    let answer := assess_crisis_risk db now user_id content trigger_source in
    assess_try db now user_id content trigger_source = Ok answer
    \/ ((exists e, assess_try db now user_id content trigger_source = Exc e)
        /\ answer = _create_safe_default_assessment now user_id content
        /\ crisis_level answer = NONE
        /\ risk_score answer = lit 0.0
        /\ escalation_needed answer = false
        /\ safety_resources answer
           = [{| rd_name := "988 Suicide & Crisis Lifeline";
                 rd_type := "hotline"; rd_contact := "988";
                 rd_description := "24/7 crisis support";
                 rd_availability := "24/7" |}]).
Proof.
  intros A db now uid content src answer. subst answer.
  unfold assess_crisis_risk.
  destruct (assess_try db now uid content src) as [a | e].
  - left. reflexivity.
  - right. split; [exists e; reflexivity|]. cbn. repeat split.
Qed.

(** The error path is taken: with the database down, the message of the
    specification's critical scenario is answered by the safe default. *)
Example assess_crisis_risk_store_down :
  assess_try (A := binary64) store_down 0 "42" plan_tonight "chat"
  = Exc "database is unavailable"
  /\ assess_crisis_risk (A := binary64) store_down 0 "42" plan_tonight "chat"
     = _create_safe_default_assessment 0 "42" plan_tonight.
Proof. split; vm_compute; reflexivity. Qed.

(** The empty content goes through the [try] block, which never calls the
    store for it: the assessment is not the safe default but one built in
    the normal way, at level NONE and with the base confidence 0.5. *)
Example assess_empty_content :
  forall (db : EventStore (A := binary64)) (now : Z) (user_id source : string),
    let a := assess_crisis_risk db now user_id "" source in
    assess_try db now user_id "" source = Ok a
    /\ crisis_level a = NONE
    /\ escalation_needed a = false
    /\ confidence a = lit 0.5
    /\ recommended_interventions a = [].
Proof. intros db now uid source. vm_compute. repeat split. Qed.

(** The store is the only step of the [try] block that can raise. *)
Lemma assess_try_ok_when_store_returns :
  forall (A : Arith) (db : EventStore) (now : Z)
         (user_id content trigger_source : string),
    (forall a src, _store_crisis_event db a src = Returned) ->
    exists a, assess_try db now user_id content trigger_source = Ok a.
Proof.
  intros A db now uid content src H. unfold assess_try.
  destruct (fold_left _ _ _) as [[fs r] imm].
  destruct (negb _); [rewrite H|]; eexists; reflexivity.
Qed.

(** ** Pattern evaluation by counts *)

Section CountingFacts.

Context {A : Arith}.
Local Open Scope py_scope.

Lemma matches_cons :
  forall (content term : string) (terms : list string),
    matches content (term :: terms)
    = if str_in term content then S (matches content terms)
      else matches content terms.
Proof.
  intros content term terms. unfold matches. cbn [filter].
  destruct (str_in term content); reflexivity.
Qed.

Lemma matches_le_length :
  forall (content : string) (terms : list string),
    (matches content terms <= List.length terms)%nat.
Proof.
  intros content terms. unfold matches. apply filter_length_le.
Qed.

Lemma matches_none :
  forall (content : string) (terms : list string),
    (forall term, In term terms -> str_in term content = false) ->
    matches content terms = 0%nat.
Proof.
  intros content terms. induction terms as [|t terms IH]; intros H.
  - reflexivity.
  - rewrite matches_cons, (H t (or_introl eq_refl)).
    apply IH. intros term Hin. apply H. right. exact Hin.
Qed.

Lemma fold_keyword_step :
  forall (content : string) (weight : num) (terms : list string)
         (score : num) (n : nat),
    fold_left (keyword_step content weight) terms (score, n)
    = (add_times (matches content terms) (weight * lit 0.3) score,
       (n + matches content terms)%nat).
Proof.
  intros content weight terms.
  induction terms as [|t terms IH]; intros score n.
  - cbn. rewrite Nat.add_0_r. reflexivity.
  - cbn [fold_left]. rewrite matches_cons. unfold keyword_step at 2.
    destruct (str_in t content).
    + rewrite IH. cbn [add_times]. rewrite Nat.add_succ_r. reflexivity.
    + apply IH.
Qed.

Lemma fold_modifier_step :
  forall (content : string) (terms : list string) (bonus : num),
    fold_left (modifier_step content) terms bonus
    = add_times (matches content terms) (lit 0.1) bonus.
Proof.
  intros content terms.
  induction terms as [|t terms IH]; intros bonus.
  - reflexivity.
  - cbn [fold_left]. rewrite matches_cons. unfold modifier_step at 2.
    destruct (str_in t content).
    + rewrite IH. reflexivity.
    + apply IH.
Qed.

(** The score of a pattern is a function of the three counts. *)
Lemma evaluate_pattern_counts :
  forall (content : string) (pattern : CrisisKeywordPattern),
    _evaluate_pattern content pattern
    = score_of_counts (severity_weight pattern)
        (matches content (keywords pattern))
        (matches content (context_modifiers pattern))
        (negation_found content).
Proof.
  intros content pattern. unfold _evaluate_pattern, score_of_counts.
  rewrite fold_keyword_step, fold_modifier_step. reflexivity.
Qed.

Lemma evaluate_pattern_no_keyword :
  forall (content : string) (pattern : CrisisKeywordPattern),
    (forall keyword, In keyword (keywords pattern) ->
                     str_in keyword content = false) ->
    _evaluate_pattern content pattern = lit 0.0.
Proof.
  intros content pattern H.
  rewrite evaluate_pattern_counts, (matches_none _ _ H). reflexivity.
Qed.

(** *** Content without any keyword

    What follows needs four facts about the arithmetic, each a comparison of
    two literals of the source. *)

Hypothesis zero_not_positive : (lit 0.0 >? of_nat 0) = false.
Hypothesis zero_below_one : pymin (lit 0.0) (lit 1.0) = lit 0.0.
Hypothesis zero_is_none : _determine_crisis_level (lit 0.0) [] = NONE.
Hypothesis zero_no_escalation : (lit 0.0 >? lit 0.8) = false.

Lemma pattern_loop_no_keyword :
  forall (content : string) (patterns : list CrisisKeywordPattern)
         (st : list RiskFactor * num * bool),
    (forall pattern, In pattern patterns ->
       forall keyword, In keyword (keywords pattern) ->
                       str_in keyword content = false) ->
    fold_left (pattern_step content) patterns st = st.
Proof.
  intros content patterns.
  induction patterns as [|p patterns IH]; intros st H.
  - reflexivity.
  - cbn [fold_left].
    assert (Hp : pattern_step content st p = st).
    { unfold pattern_step. destruct st as [[fs r] imm].
      rewrite (evaluate_pattern_no_keyword content p (H p (or_introl eq_refl))).
      rewrite zero_not_positive. reflexivity. }
    rewrite Hp. apply IH. intros q Hq. apply H. right. exact Hq.
Qed.

Lemma assess_no_keyword :
  forall (db : EventStore) (now : Z) (user_id content trigger_source : string),
    (forall pattern, In pattern crisis_patterns ->
       forall keyword, In keyword (keywords pattern) ->
                       str_in keyword (lower content) = false) ->
    let a := assess_crisis_risk db now user_id content trigger_source in
    crisis_level a = NONE
    /\ risk_score a = lit 0.0
    /\ detected_factors a = []
    /\ immediate_action_required a = false
    /\ escalation_needed a = false.
Proof.
  intros db now uid content src H a. subst a.
  unfold assess_crisis_risk, assess_try.
  rewrite (pattern_loop_no_keyword _ _ _ H).
  rewrite zero_below_one, zero_is_none.
  cbn [CrisisLevel_eqb negb crisis_level risk_score detected_factors
       immediate_action_required escalation_needed level_in existsb orb].
  rewrite zero_no_escalation. repeat split.
Qed.

End CountingFacts.

Lemma no_keyword_occurs_true :
  forall (A : Arith) (content : string),
    no_keyword_occurs content = true ->
    forall pattern, In pattern crisis_patterns ->
      forall keyword, In keyword (keywords pattern) ->
        str_in keyword content = false.
Proof.
  intros A content H pattern Hp keyword Hk.
  unfold no_keyword_occurs in H.
  rewrite forallb_forall in H. specialize (H pattern Hp).
  rewrite forallb_forall in H. specialize (H keyword Hk).
  apply negb_true_iff. exact H.
Qed.

(** ** Assessment: content without keywords *)

Lemma catalog_keywords_binary64 :
  forall pattern : CrisisKeywordPattern (A := binary64),
    In pattern crisis_patterns ->
    exists pattern' : CrisisKeywordPattern (A := exact),
      In pattern' crisis_patterns /\ keywords pattern' = keywords pattern.
Proof.
  intros pattern H.
  assert (E : map keywords (crisis_patterns (A := exact))
              = map keywords (crisis_patterns (A := binary64)))
    by reflexivity.
  apply (in_map keywords) in H. rewrite <- E in H.
  apply in_map_iff in H. destruct H as (pattern' & Hk & Hin).
  exists pattern'. split; assumption.
Qed.

(** C5. In exact arithmetic and in binary64, for every content and every
    state of the database: when no keyword of any catalog pattern occurs in
    the lower-cased content, every pattern scores 0.0, whatever modifier or
    negation terms the content holds, and the assessment has level NONE,
    risk score 0.0 and no detected factor. *)
Theorem assess_without_keywords :
  forall (now : Z) (user_id content trigger_source : string),
    (forall pattern, In pattern (crisis_patterns (A := exact)) ->
       forall keyword, In keyword (keywords pattern) ->
         str_in keyword (lower content) = false) ->
    (forall db : EventStore (A := exact),
        let a := assess_crisis_risk db now user_id content trigger_source in
        crisis_level a = NONE
        /\ (risk_score a == 0.0)%Q
        /\ detected_factors a = []
        /\ (forall pattern, In pattern (crisis_patterns (A := exact)) ->
              (_evaluate_pattern (lower content) pattern == 0.0)%Q))
    /\ (forall db : EventStore (A := binary64),
          let a := assess_crisis_risk db now user_id content trigger_source in
          crisis_level a = NONE
          /\ risk_score a = lit 0.0
          /\ detected_factors a = []
          /\ (forall pattern, In pattern (crisis_patterns (A := binary64)) ->
                _evaluate_pattern (lower content) pattern = lit 0.0)).
Proof.
  intros now uid content src H. split.
  - intros db a.
    destruct (assess_no_keyword (A := exact) eq_refl eq_refl eq_refl eq_refl
                db now uid content src H) as (Hl & Hr & Hf & _).
    fold a in Hl, Hr, Hf. rewrite Hr. repeat split; try assumption.
    intros pattern Hin.
    rewrite (evaluate_pattern_no_keyword _ _ (H pattern Hin)). reflexivity.
  - assert (H' : forall pattern,
               In pattern (crisis_patterns (A := binary64)) ->
               forall keyword, In keyword (keywords pattern) ->
                 str_in keyword (lower content) = false).
    { intros pattern Hin keyword Hk.
      destruct (catalog_keywords_binary64 pattern Hin) as (q & Hq & E).
      apply (H q Hq). rewrite E. exact Hk. }
    intros db a.
    destruct (assess_no_keyword (A := binary64) eq_refl eq_refl eq_refl
                eq_refl db now uid content src H') as (Hl & Hr & Hf & _).
    repeat split; try assumption.
    intros pattern Hin.
    apply (evaluate_pattern_no_keyword _ _ (H' pattern Hin)).
Qed.

Lemma assess_without_keywords_witness :
  let content := "I will NOT plan how, never today" in
  (forall db : EventStore (A := exact),
      let a := assess_crisis_risk db 0 "42" content "chat" in
      crisis_level a = NONE
      /\ (risk_score a == 0.0)%Q
      /\ detected_factors a = []
      /\ (forall pattern, In pattern (crisis_patterns (A := exact)) ->
            (_evaluate_pattern (lower content) pattern == 0.0)%Q))
  /\ (forall db : EventStore (A := binary64),
        let a := assess_crisis_risk db 0 "42" content "chat" in
        crisis_level a = NONE
        /\ risk_score a = lit 0.0
        /\ detected_factors a = []
        /\ (forall pattern, In pattern (crisis_patterns (A := binary64)) ->
              _evaluate_pattern (lower content) pattern = lit 0.0)).
Proof.
  apply (assess_without_keywords 0 "42" "I will NOT plan how, never today"
           "chat").
  apply no_keyword_occurs_true. vm_compute. reflexivity.
Defined.

(** A keyword that [str.lower] makes out of a character that is not ASCII is
    found: the Kelvin sign followed by "ill myself" lower-cases to "kill
    myself", which gives suicidal ideation and level HIGH. *)
Lemma kelvin_sign_is_lowered :
  lower kelvin_ill_myself = "kill myself"
  /\ forall db : EventStore (A := binary64),
       (forall a src, _store_crisis_event db a src = Returned) ->
       let a := assess_crisis_risk db 0 "42" kelvin_ill_myself "chat" in
       crisis_level a = HIGH /\ detected_factors a = [SUICIDAL_IDEATION].
Proof.
  split; [reflexivity|].
  intros db Hstore. unfold assess_crisis_risk, assess_try.
  destruct (fold_left _ _ _) as [[fs r] imm] eqn:F.
  vm_compute in F. injection F as <- <- <-.
  destruct (negb _); [rewrite Hstore|]; split; reflexivity.
Qed.

(** ** Assessment: the critical scenario *)

(** Runs the pattern loop on a literal content, then follows the store. *)
Ltac assess_at_literal :=
  let F := fresh "F" in
  intros; unfold assess_crisis_risk, assess_try;
  destruct (fold_left _ _ _) as [[?fs ?r] ?imm] eqn:F;
  vm_compute in F; injection F as <- <- <-;
  destruct (negb _);
  [ unfold _store_crisis_event;
    destruct (insert_event _ _ _); [ | destruct (rollback _) ]
  | ];
  reflexivity.

(** C2, evaluated.  For the message "I have a plan to end my life tonight",
    any user and any state of the database, [assess_crisis_risk] answers
    [immediate_action_required = false], in exact arithmetic and in
    binary64: one keyword and two context modifiers score 0.3 + 0.2 = 0.5,
    which is not above the 0.7 that an immediate action asks for. *)
Theorem plan_tonight_no_immediate_action :
  (forall (db : EventStore (A := exact)) (now : Z) (user_id source : string),
      immediate_action_required
        (assess_crisis_risk db now user_id plan_tonight source) = false)
  /\ (forall (db : EventStore (A := binary64)) (now : Z)
             (user_id source : string),
         immediate_action_required
           (assess_crisis_risk db now user_id plan_tonight source) = false).
Proof. split; assess_at_literal. Qed.

(** The rest of the scenario holds when the event is stored: level HIGH,
    escalation needed, suicidal ideation detected. *)
Example plan_tonight_assessment :
  let a := assess_crisis_risk (A := binary64) store_up 0 "42" plan_tonight
             "chat" in
  crisis_level a = HIGH
  /\ escalation_needed a = true
  /\ detected_factors a = [SUICIDAL_IDEATION]
  /\ risk_score a = lit 0.5
  /\ _evaluate_pattern (lower plan_tonight) suicidal_ideation_pattern = lit 0.5
  /\ immediate_action_required a = false.
Proof. vm_compute. repeat split. Qed.

Example plan_tonight_assessment_exact :
  let a := assess_crisis_risk (A := exact) store_up 0 "42" plan_tonight
             "chat" in
  crisis_level a = HIGH
  /\ escalation_needed a = true
  /\ detected_factors a = [SUICIDAL_IDEATION]
  /\ (risk_score a == 0.5)%Q
  /\ immediate_action_required a = false.
Proof. vm_compute. repeat split; discriminate. Qed.

(** ** Exact arithmetic *)

Ltac exact_arith := cbn [num lit of_nat add mul ltb exact] in *.

Lemma Qltb_true_iff : forall x y : Q, Qltb x y = true <-> (x < y)%Q.
Proof.
  intros x y. unfold Qltb. rewrite negb_true_iff. split.
  - intros H. apply Qnot_le_lt. intros Hle.
    apply Qle_bool_iff in Hle. congruence.
  - intros H. destruct (Qle_bool y x) eqn:E; [|reflexivity].
    apply Qle_bool_iff in E. lra.
Qed.

Lemma Qltb_false_iff : forall x y : Q, Qltb x y = false <-> (y <= x)%Q.
Proof.
  intros x y. unfold Qltb. rewrite negb_false_iff. apply Qle_bool_iff.
Qed.

(** Splits on every comparison of the goal, leaving its meaning as a
    hypothesis. *)
Ltac split_ltb :=
  repeat match goal with
  | |- context [Qltb ?x ?y] =>
      let H := fresh "H" in
      destruct (Qltb x y) eqn:H;
      [apply Qltb_true_iff in H | apply Qltb_false_iff in H]
  end.

Section ExactArithmetic.

Local Open Scope Q_scope.

Lemma add_times_exact :
  forall (n : nat) (x start : Q),
    add_times (A := exact) n x start == start + inject_Z (Z.of_nat n) * x.
Proof.
  induction n as [|n IH]; intros x start.
  - cbn. ring.
  - cbn [add_times]. rewrite IH.
    rewrite Nat2Z.inj_succ, <- Z.add_1_r, inject_Z_plus.
    cbn [add exact]. ring.
Qed.

Lemma count_nonneg : forall n : nat, 0 <= inject_Z (Z.of_nat n).
Proof.
  intros n. change 0 with (inject_Z 0). rewrite <- Zle_Qle. lia.
Qed.

Lemma count_monotone :
  forall n m : nat,
    (n <= m)%nat -> inject_Z (Z.of_nat n) <= inject_Z (Z.of_nat m).
Proof.
  intros n m H. rewrite <- Zle_Qle. lia.
Qed.

Lemma pymin_le_l : forall a b : Q, pymin (A := exact) a b <= a.
Proof. intros a b. unfold pymin. exact_arith. split_ltb; lra. Qed.

Lemma pymin_le_r : forall a b : Q, pymin (A := exact) a b <= b.
Proof. intros a b. unfold pymin. exact_arith. split_ltb; lra. Qed.

Lemma pymin_glb :
  forall a b c : Q, c <= a -> c <= b -> c <= pymin (A := exact) a b.
Proof. intros a b c Ha Hb. unfold pymin. exact_arith. split_ltb; lra. Qed.

Lemma pymin_left : forall a b : Q, a <= b -> pymin (A := exact) a b = a.
Proof.
  intros a b Ha. unfold pymin. exact_arith. split_ltb; [lra | reflexivity].
Qed.

Lemma modifier_bonus_nonneg :
  forall j : nat, 0 <= add_times (A := exact) j 0.1 0.0.
Proof.
  intros j. rewrite add_times_exact. pose proof (count_nonneg j). nra.
Qed.

(** *** Bounds on a pattern score *)

Lemma score_of_counts_le_one :
  forall (w : Q) (k j : nat) (neg : bool),
    score_of_counts (A := exact) w k j neg <= 1.0.
Proof.
  intros w k j neg. unfold score_of_counts.
  destruct (k =? 0)%nat.
  - exact_arith. lra.
  - apply pymin_le_r.
Qed.

Lemma score_of_counts_single :
  forall (w : Q) (k j : nat) (neg : bool),
    0 <= w -> (k <= 1)%nat ->
    score_of_counts (A := exact) w k j neg <= w.
Proof.
  intros w k j neg Hw Hk. unfold score_of_counts.
  destruct k as [|[|k]]; [| |lia].
  - exact_arith. cbn. lra.
  - cbn [Nat.eqb Nat.ltb Nat.leb add_times].
    eapply Qle_trans; [apply pymin_le_l|].
    pose proof (pymin_le_r (add_times (A := exact) j 0.1 0.0) (w * 0.3)) as Hb.
    exact_arith.
    destruct neg; lra.
Qed.

Lemma catalog_weights :
  forall pattern : CrisisKeywordPattern (A := exact),
    In pattern crisis_patterns ->
    0.5 <= severity_weight pattern <= 1.0.
Proof.
  intros pattern H. cbn in H.
  repeat (destruct H as [<- | H]; [cbn; lra|]). contradiction.
Qed.

(** C3, as amended.  In exact arithmetic, for every pattern of the catalog
    and every content: the pattern score is at most 1.0, the value it is
    clamped to; and it is at most the pattern's [severity_weight] whenever at
    most one keyword of the pattern occurs in the content. *)
Theorem evaluate_pattern_bound :
  forall (pattern : CrisisKeywordPattern (A := exact)) (content : string),
    In pattern crisis_patterns ->
    _evaluate_pattern content pattern <= 1.0
    /\ ((matches content (keywords pattern) <= 1)%nat ->
        _evaluate_pattern content pattern <= severity_weight pattern).
Proof.
  intros pattern content Hin.
  rewrite evaluate_pattern_counts. split.
  - apply score_of_counts_le_one.
  - intros Hk. apply score_of_counts_single; [|exact Hk].
    pose proof (catalog_weights pattern Hin). lra.
Qed.

Lemma evaluate_pattern_bound_witness :
  _evaluate_pattern (A := exact) one_self_harm_keyword self_harm_pattern <= 1.0
  /\ _evaluate_pattern (A := exact) one_self_harm_keyword self_harm_pattern
     <= severity_weight (A := exact) self_harm_pattern.
Proof.
  assert (Hin : In (self_harm_pattern (A := exact)) crisis_patterns)
    by (right; left; reflexivity).
  split.
  - exact (proj1 (evaluate_pattern_bound self_harm_pattern
                    one_self_harm_keyword Hin)).
  - apply (proj2 (evaluate_pattern_bound self_harm_pattern
                    one_self_harm_keyword Hin)).
    vm_compute. apply le_n.
Defined.

End ExactArithmetic.

(** C3, as stated, fails for the self-harm pattern: three of its keywords
    occur in the message below, which scores 3 * 0.27 + 0.18 = 0.99, above
    the pattern's weight 0.9, in exact arithmetic and in binary64. *)
Lemma self_harm_score_exceeds_weight :
  In (self_harm_pattern (A := exact)) crisis_patterns
  /\ (_evaluate_pattern (A := exact) three_self_harm_keywords self_harm_pattern
      >? severity_weight self_harm_pattern)%py = true
  /\ In (self_harm_pattern (A := binary64)) crisis_patterns
  /\ (_evaluate_pattern (A := binary64) three_self_harm_keywords
        self_harm_pattern
      >? severity_weight self_harm_pattern)%py = true.
Proof.
  repeat split; try (right; left; reflexivity); vm_compute; reflexivity.
Qed.

(** ** Negation *)

Section NegationExact.

Local Open Scope Q_scope.

Lemma matches_ext :
  forall (content plain : string) (terms : list string),
    (forall term, In term terms -> str_in term content = str_in term plain) ->
    matches content terms = matches plain terms.
Proof.
  intros content plain terms. induction terms as [|t terms IH]; intros H.
  - reflexivity.
  - rewrite !matches_cons, (H t (or_introl eq_refl)), IH; [reflexivity|].
    intros term Hin. apply H. right. exact Hin.
Qed.

Lemma score_of_counts_negated :
  forall (w : Q) (j : nat),
    0 < w -> w <= 1.0 ->
    score_of_counts (A := exact) w 1 j true
    == 0.7 * score_of_counts (A := exact) w 1 j false
    /\ 0 < score_of_counts (A := exact) w 1 j true
    /\ score_of_counts (A := exact) w 1 j true
       < score_of_counts (A := exact) w 1 j false.
Proof.
  intros w j Hw Hw1. unfold score_of_counts.
  cbn [Nat.eqb Nat.ltb Nat.leb add_times].
  set (bonus := pymin (add_times j _ _) _).
  assert (Hb1 : bonus <= w * 0.3) by apply pymin_le_r.
  assert (Hb0 : 0 <= bonus).
  { apply pymin_glb; [apply modifier_bonus_nonneg | exact_arith; lra]. }
  exact_arith.
  rewrite (pymin_left (0.0 + w * 0.3 + bonus) 1.0) by lra.
  rewrite (pymin_left ((0.0 + w * 0.3 + bonus) * 0.7) 1.0) by lra.
  repeat split; [ring | lra | lra].
Qed.

(** C4, as amended.  In exact arithmetic, for every pattern whose weight lies
    in (0, 1]: take a content in which exactly one keyword of the pattern and
    a negation term occur, and a content without negation term in which also
    exactly one keyword occurs and the same context modifiers occur.  The
    score of the first is 0.7 times the score of the second, strictly less
    than it, and strictly greater than zero. *)
Theorem negation_dampens_single_keyword :
  forall (pattern : CrisisKeywordPattern (A := exact))
         (content plain : string),
    0 < severity_weight pattern -> severity_weight pattern <= 1.0 ->
    matches content (keywords pattern) = 1%nat ->
    matches plain (keywords pattern) = 1%nat ->
    (forall modifier, In modifier (context_modifiers pattern) ->
       str_in modifier content = str_in modifier plain) ->
    negation_found content = true ->
    negation_found plain = false ->
    _evaluate_pattern content pattern == 0.7 * _evaluate_pattern plain pattern
    /\ 0 < _evaluate_pattern content pattern
    /\ _evaluate_pattern content pattern < _evaluate_pattern plain pattern.
Proof.
  intros pattern content plain Hw Hw1 Hk Hk' Hm Hn Hn'.
  rewrite !evaluate_pattern_counts.
  rewrite Hk, Hk', Hn, Hn', (matches_ext _ _ _ Hm).
  apply score_of_counts_negated; assumption.
Qed.

Lemma negation_dampens_single_keyword_witness :
  _evaluate_pattern (A := exact) not_hopeless hopelessness_pattern
  == 0.7 * _evaluate_pattern (A := exact) plainly_hopeless hopelessness_pattern
  /\ 0 < _evaluate_pattern (A := exact) not_hopeless hopelessness_pattern
  /\ _evaluate_pattern (A := exact) not_hopeless hopelessness_pattern
     < _evaluate_pattern (A := exact) plainly_hopeless hopelessness_pattern.
Proof.
  apply (negation_dampens_single_keyword hopelessness_pattern
           not_hopeless plainly_hopeless).
  - reflexivity.
  - discriminate.
  - reflexivity.
  - reflexivity.
  - intros modifier Hin. cbn in Hin.
    repeat (destruct Hin as [<- | Hin]; [reflexivity|]). contradiction.
  - reflexivity.
  - reflexivity.
Defined.

End NegationExact.

(** C4, as stated, fails for the hopelessness pattern.  "never" is a negation
    term and also one of the pattern's context modifiers: with it the
    message scores (0.24 + 0.1) * 0.7 = 0.238; with it taken out, one keyword
    still occurs, no negation term is left, and the message scores 0.24,
    of which 0.7 times is 0.168.  So it is in exact arithmetic and in
    binary64. *)
Lemma never_is_negation_and_modifier :
  never_hopeless = ("i will " ++ "never" ++ " feel hopeless")%string
  /\ never_taken_out = ("i will " ++ " feel hopeless")%string
  /\ In "never" negation_patterns
  /\ negation_found never_hopeless = true
  /\ negation_found never_taken_out = false
  /\ matches never_hopeless (keywords (hopelessness_pattern (A := exact)))
     = 1%nat
  /\ matches never_taken_out (keywords (hopelessness_pattern (A := exact)))
     = 1%nat
  /\ ~ (_evaluate_pattern (A := exact) never_hopeless hopelessness_pattern
        == 0.7 * _evaluate_pattern (A := exact) never_taken_out
                   hopelessness_pattern)%Q
  /\ PrimFloat.eqb
       (_evaluate_pattern (A := binary64) never_hopeless hopelessness_pattern)
       (@mul binary64
          (_evaluate_pattern (A := binary64) never_taken_out
             hopelessness_pattern)
          (lit 0.7))
     = false.
Proof.
  repeat split; try reflexivity.
  - cbn. tauto.
  - vm_compute. discriminate.
Qed.

(** A negation term can also be part of the keyword itself.  "not worth
    living" is a keyword of the suicidal-ideation pattern: the message scores
    0.3 * 0.7 = 0.21 with the term, and 0.0 with the term taken out, so the
    score with negation is the larger one. *)
Example negation_inside_keyword :
  not_worth_living = ("life is " ++ "not" ++ " worth living")%string
  /\ not_taken_out = ("life is " ++ " worth living")%string
  /\ negation_found not_taken_out = false
  /\ matches not_worth_living
       (keywords (suicidal_ideation_pattern (A := exact))) = 1%nat
  /\ (_evaluate_pattern (A := exact) not_taken_out suicidal_ideation_pattern
      < _evaluate_pattern (A := exact) not_worth_living
          suicidal_ideation_pattern)%Q
  /\ (_evaluate_pattern (A := binary64) not_taken_out
        suicidal_ideation_pattern
      <? _evaluate_pattern (A := binary64) not_worth_living
           suicidal_ideation_pattern)%py = true.
Proof. repeat split. Qed.

(** ** Confidence *)

Section ConfidenceExact.

Local Open Scope Q_scope.

Lemma pymin_monotone :
  forall a a' b : Q,
    a <= a' -> pymin (A := exact) a b <= pymin (A := exact) a' b.
Proof. intros a a' b H. unfold pymin. exact_arith. split_ltb; lra. Qed.

(** In exact arithmetic, for a fixed content: the confidence does not
    decrease when the number of detected factors grows, nor when the risk
    score grows, and it never exceeds 1.0. *)
Lemma confidence_monotone_exact :
  forall (content : string) (factors factors' : list RiskFactor)
         (risk_score risk_score' : Q),
    (List.length factors <= List.length factors')%nat ->
    risk_score <= risk_score' ->
    _calculate_confidence (A := exact) content factors risk_score
    <= _calculate_confidence (A := exact) content factors' risk_score'
    /\ _calculate_confidence (A := exact) content factors' risk_score' <= 1.0.
Proof.
  intros content fs fs' r r' Hlen Hr.
  unfold _calculate_confidence. split; [|apply pymin_le_r].
  apply pymin_monotone.
  assert (Hm : pymin (A := exact)
                 (of_nat (List.length fs) * lit 0.15)%py (lit 0.3)
               <= pymin (A := exact)
                    (of_nat (List.length fs') * lit 0.15)%py (lit 0.3)).
  { apply pymin_monotone. pose proof (count_monotone _ _ Hlen).
    exact_arith. lra. }
  revert Hm.
  generalize (pymin (A := exact)
                (of_nat (List.length fs) * lit 0.15)%py (lit 0.3)).
  generalize (pymin (A := exact)
                (of_nat (List.length fs') * lit 0.15)%py (lit 0.3)).
  intros m' m Hm.
  destruct (50 <? py_len (strip content))%nat,
           (100 <? py_len (strip content))%nat,
           (existsb _ clear_indicators);
    exact_arith; lra.
Qed.

Lemma confidence_at_least_half :
  forall (content : string) (factors : list RiskFactor) (risk_score : Q),
    0 <= risk_score ->
    0.5 <= _calculate_confidence (A := exact) content factors risk_score.
Proof.
  intros content fs r Hr.
  unfold _calculate_confidence.
  assert (Hm : 0 <= pymin (A := exact)
                      (of_nat (List.length fs) * lit 0.15)%py (lit 0.3)).
  { apply pymin_glb; exact_arith; [|lra].
    pose proof (count_nonneg (List.length fs)). lra. }
  revert Hm.
  generalize (pymin (A := exact)
                (of_nat (List.length fs) * lit 0.15)%py (lit 0.3)).
  intros m Hm.
  apply pymin_glb; [|exact_arith; lra].
  destruct (50 <? py_len (strip content))%nat,
           (100 <? py_len (strip content))%nat,
           (existsb _ clear_indicators);
    exact_arith; lra.
Qed.

(** The pattern loop only ever adds positive scores to the risk score. *)
Lemma pattern_loop_nonneg :
  forall (content : string)
         (patterns : list (CrisisKeywordPattern (A := exact)))
         (st : list RiskFactor * Q * bool),
    0 <= snd (fst st) ->
    0 <= snd (fst (fold_left (pattern_step content) patterns st)).
Proof.
  intros content patterns.
  induction patterns as [|p patterns IH]; intros st H.
  - exact H.
  - cbn [fold_left]. apply IH.
    destruct st as [[fs r] imm]. unfold pattern_step.
    cbn [fst snd] in *. exact_arith.
    destruct (Qltb (inject_Z (Z.of_nat 0)) (_evaluate_pattern content p))
      eqn:Hpos.
    + apply Qltb_true_iff in Hpos. cbn [fst snd].
      change (inject_Z (Z.of_nat 0)) with 0 in Hpos. lra.
    + exact H.
Qed.

Lemma assess_confidence_cases :
  forall (db : EventStore (A := exact)) (now : Z)
         (user_id content trigger_source : string),
    let a := assess_crisis_risk db now user_id content trigger_source in
    (assess_try db now user_id content trigger_source = Ok a
     /\ 0.5 <= confidence a)
    \/ ((exists e, assess_try db now user_id content trigger_source = Exc e)
        /\ a = _create_safe_default_assessment now user_id content
        /\ confidence a == 0.0).
Proof.
  intros db now uid content src a. subst a.
  unfold assess_crisis_risk, assess_try.
  pose proof (pattern_loop_nonneg (lower content) crisis_patterns
                ([], 0.0, false)) as Hr.
  cbn [fst snd] in Hr. specialize (Hr ltac:(lra)).
  change (@lit exact 0.0) with 0.0.
  destruct (fold_left _ _ _) as [[fs r] imm]. cbn [fst snd] in Hr.
  assert (Hc : 0.5 <= _calculate_confidence (A := exact) content fs
                        (pymin r (lit 1.0))).
  { apply confidence_at_least_half. apply pymin_glb; exact_arith; lra. }
  destruct (negb _).
  - destruct (_store_crisis_event _ _ _) as [|e].
    + left. split; [reflexivity | exact Hc].
    + right. split; [exists e; reflexivity|].
      split; [reflexivity|]. cbn. reflexivity.
  - left. split; [reflexivity | exact Hc].
Qed.

End ConfidenceExact.

(** ** The catalog, count by count

    A content produces at most as many keyword matches as the pattern has
    keywords, and likewise for modifiers; so what holds for all these counts
    holds for all contents.  This settles statements about the catalog in
    binary64, where no algebra is at hand. *)

Section Enumeration.

Context {A : Arith}.

Lemma upto_in : forall n k : nat, (k <= n)%nat -> In k (upto n).
Proof. intros n k H. unfold upto. apply in_seq. lia. Qed.

Lemma counts_satisfy_sound :
  forall (check : CrisisKeywordPattern -> nat -> nat -> bool -> bool)
         (pattern : CrisisKeywordPattern),
    counts_satisfy check pattern = true ->
    forall (content : string) (negated : bool),
      check pattern (matches content (keywords pattern))
            (matches content (context_modifiers pattern)) negated = true.
Proof.
  intros check pattern H content negated.
  unfold counts_satisfy in H. rewrite forallb_forall in H.
  specialize (H _ (upto_in _ _ (matches_le_length content (keywords pattern)))).
  rewrite forallb_forall in H.
  specialize (H _ (upto_in _ _
                     (matches_le_length content (context_modifiers pattern)))).
  apply andb_true_iff in H. destruct H as [Ht Hf].
  destruct negated; assumption.
Qed.

Lemma catalog_satisfies :
  forall (check : CrisisKeywordPattern -> nat -> nat -> bool -> bool),
    forallb (counts_satisfy check) crisis_patterns = true ->
    forall pattern, In pattern crisis_patterns ->
      forall (content : string) (negated : bool),
        check pattern (matches content (keywords pattern))
              (matches content (context_modifiers pattern)) negated = true.
Proof.
  intros check H pattern Hin. rewrite forallb_forall in H.
  apply counts_satisfy_sound, H, Hin.
Qed.

End Enumeration.

(** The bounds of a pattern score, [evaluate_pattern_counts] and an
    enumeration in place of algebra: the same statement in binary64. *)
Lemma evaluate_pattern_bound_binary64 :
  forall (pattern : CrisisKeywordPattern (A := binary64)) (content : string),
    In pattern crisis_patterns ->
    PrimFloat.leb (_evaluate_pattern content pattern) (lit 1.0) = true
    /\ ((matches content (keywords pattern) <= 1)%nat ->
        PrimFloat.leb (_evaluate_pattern content pattern)
                      (severity_weight pattern) = true).
Proof.
  intros pattern content Hin.
  assert (H : forallb (counts_satisfy (bound_check (A := binary64) PrimFloat.leb))
                      crisis_patterns = true)
    by (vm_compute; reflexivity).
  pose proof (catalog_satisfies _ H pattern Hin content
                (negation_found content)) as Hc.
  unfold bound_check in Hc. rewrite <- evaluate_pattern_counts in Hc.
  apply andb_true_iff in Hc. destruct Hc as [H1 Hw]. split; [exact H1|].
  intros Hk. apply Nat.leb_le in Hk. rewrite Hk in Hw. exact Hw.
Qed.

(** Negation with a single keyword, in binary64, for the patterns of the
    catalog. *)
Lemma negation_dampens_single_keyword_binary64 :
  forall (pattern : CrisisKeywordPattern (A := binary64))
         (content plain : string),
    In pattern crisis_patterns ->
    matches content (keywords pattern) = 1%nat ->
    matches plain (keywords pattern) = 1%nat ->
    (forall modifier, In modifier (context_modifiers pattern) ->
       str_in modifier content = str_in modifier plain) ->
    negation_found content = true ->
    negation_found plain = false ->
    PrimFloat.eqb (_evaluate_pattern content pattern)
                  (@mul binary64 (_evaluate_pattern plain pattern) (lit 0.7))
    = true
    /\ (_evaluate_pattern content pattern >? of_nat 0)%py = true
    /\ (_evaluate_pattern content pattern <? _evaluate_pattern plain pattern)%py
       = true.
Proof.
  intros pattern content plain Hin Hk Hk' Hm Hn Hn'.
  assert (H : forallb (counts_satisfy
                         (dampening_check (A := binary64) PrimFloat.eqb))
                      crisis_patterns = true)
    by (vm_compute; reflexivity).
  pose proof (catalog_satisfies _ H pattern Hin content true) as Hc.
  unfold dampening_check in Hc. rewrite Hk in Hc. cbn [Nat.eqb] in Hc.
  rewrite !evaluate_pattern_counts.
  rewrite Hk, Hk', Hn, Hn', <- (matches_ext _ _ _ Hm).
  apply andb_true_iff in Hc. destruct Hc as [Hc H3].
  apply andb_true_iff in Hc. destruct Hc as [H1 H2].
  repeat split; assumption.
Qed.

(** With a single keyword no pattern of the catalog scores above 0.7, in
    either arithmetic: a message needs two keywords of the same pattern
    before [assess_crisis_risk] can ask for an immediate action. *)
Lemma single_keyword_below_immediate_action :
  (forall (pattern : CrisisKeywordPattern (A := exact)) (content : string),
      In pattern crisis_patterns ->
      matches content (keywords pattern) = 1%nat ->
      (_evaluate_pattern content pattern >? lit 0.7)%py = false)
  /\ (forall (pattern : CrisisKeywordPattern (A := binary64))
             (content : string),
         In pattern crisis_patterns ->
         matches content (keywords pattern) = 1%nat ->
         (_evaluate_pattern content pattern >? lit 0.7)%py = false).
Proof.
  split; intros pattern content Hin Hk.
  - assert (H : forallb (counts_satisfy (single_keyword_check (A := exact)))
                        crisis_patterns = true)
      by (vm_compute; reflexivity).
    pose proof (catalog_satisfies _ H pattern Hin content
                  (negation_found content)) as Hc.
    unfold single_keyword_check in Hc. rewrite <- evaluate_pattern_counts in Hc.
    rewrite Hk in Hc. cbn [Nat.eqb] in Hc.
    apply negb_true_iff in Hc. exact Hc.
  - assert (H : forallb (counts_satisfy (single_keyword_check (A := binary64)))
                        crisis_patterns = true)
      by (vm_compute; reflexivity).
    pose proof (catalog_satisfies _ H pattern Hin content
                  (negation_found content)) as Hc.
    unfold single_keyword_check in Hc. rewrite <- evaluate_pattern_counts in Hc.
    rewrite Hk in Hc. cbn [Nat.eqb] in Hc.
    apply negb_true_iff in Hc. exact Hc.
Qed.

(** ** The repository's tests, replayed in binary64 *)

(** [test_crisis_level_determination]: the five assertions hold. *)
Example test_crisis_level_determination :
  _determine_crisis_level (A := binary64) (lit 0.9) [SUICIDAL_IDEATION]
  = CRITICAL
  /\ _determine_crisis_level (A := binary64) (lit 0.8) [SELF_HARM] = HIGH
  /\ _determine_crisis_level (A := binary64) (lit 0.5) [DEPRESSION; ISOLATION]
     = MEDIUM
  /\ _determine_crisis_level (A := binary64) (lit 0.3) [ANXIETY] = LOW
  /\ _determine_crisis_level (A := binary64) (lit 0.0) [] = NONE.
Proof. repeat split. Qed.

(** [test_pattern_evaluation]: the five assertions hold. *)
Example test_pattern_evaluation :
  let score1 := _evaluate_pattern (A := binary64)
                  "I have test_keyword feelings" test_pattern in
  let score2 := _evaluate_pattern (A := binary64)
                  "test_keyword and another_test" test_pattern in
  let score3 := _evaluate_pattern (A := binary64)
                  "I always have test_keyword" test_pattern in
  let score4 := _evaluate_pattern (A := binary64)
                  "I don't have test_keyword" test_pattern in
  let score5 := _evaluate_pattern (A := binary64)
                  "no matching words here" test_pattern in
  (score1 >? of_nat 0)%py = true
  /\ (score2 >? score1)%py = true
  /\ (score3 >? score1)%py = true
  /\ (score4 <? score1)%py = true
  /\ PrimFloat.eqb score5 (of_nat 0) = true.
Proof. vm_compute. repeat split. Qed.

(** [test_confidence_calculation]: the first two assertions hold. *)
Example test_confidence_calculation :
  let confidence1 := _calculate_confidence (A := binary64)
                       short_message [DEPRESSION] (lit 0.7) in
  let confidence2 := _calculate_confidence (A := binary64)
                       long_message [DEPRESSION; ANXIETY] (lit 0.8) in
  PrimFloat.leb (lit 0.0) confidence1 = true
  /\ PrimFloat.leb confidence1 (lit 1.0) = true
  /\ (confidence2 >? confidence1)%py = true.
Proof. vm_compute. repeat split. Qed.

(** [test_critical_crisis_detection] asserts an immediate action for its
    second message; the service does not ask for one, whatever the state of
    the database. *)
Example test_critical_crisis_detection_second_message :
  forall (db : EventStore (A := binary64)) (now : Z) (user_id source : string),
    immediate_action_required
      (assess_crisis_risk db now user_id plan_message source) = false.
Proof. assess_at_literal. Qed.

(** ** Ranges in binary64

    Every risk score that [assess_crisis_risk] can compute in binary64 is
    among [reachable_risk_scores]; checking them all gives the ranges of the
    risk score and of the confidence without any algebra of floats. *)

Section ReachableFacts.

Local Open Scope py_scope.

Lemma in_rev_append :
  forall (X : Type) (l acc : list X) (z : X),
    In z (rev_append l acc) <-> In z l \/ In z acc.
Proof.
  intros X l acc z. rewrite rev_append_rev, in_app_iff, <- in_rev. tauto.
Qed.

Lemma merge_rev_complete :
  forall (fuel : nat) (l1 l2 acc : list PrimFloat.float) (z : PrimFloat.float),
    In z l1 \/ In z l2 \/ In z acc -> In z (merge_rev fuel l1 l2 acc).
Proof.
  induction fuel as [|fuel IH]; intros l1 l2 acc z H.
  - cbn. rewrite !in_rev_append. tauto.
  - cbn [merge_rev]. destruct l1 as [|x l1].
    + rewrite in_rev_append. cbn in H. tauto.
    + destruct l2 as [|y l2].
      * rewrite in_rev_append. cbn in H |- *. tauto.
      * destruct (PrimFloat.ltb x y); [apply IH; cbn in *; tauto|].
        destruct (PrimFloat.ltb y x); [apply IH; cbn in *; tauto|].
        destruct (PrimFloat.Leibniz.eqb x y) eqn:E.
        -- apply FloatAxioms.Leibniz.eqb_spec in E. subst y.
           apply IH. cbn in *. tauto.
        -- apply IH. cbn in *. tauto.
Qed.

Lemma merge_floats_complete :
  forall (l1 l2 : list PrimFloat.float) (z : PrimFloat.float),
    In z l1 \/ In z l2 -> In z (merge_floats l1 l2).
Proof.
  intros l1 l2 z H. unfold merge_floats. rewrite in_rev_append. left.
  apply merge_rev_complete. tauto.
Qed.

Lemma add_all_rev_complete :
  forall (v : PrimFloat.float) (sums acc : list PrimFloat.float)
         (z : PrimFloat.float),
    (exists s, In s sums /\ z = PrimFloat.add s v) \/ In z acc ->
    In z (add_all_rev v sums acc).
Proof.
  intros v sums. induction sums as [|s sums IH]; intros acc z H.
  - cbn. destruct H as [(s & [] & _) | H]. exact H.
  - cbn [add_all_rev]. apply IH.
    destruct H as [(s' & [<- | Hin] & ->) | H].
    + right. left. reflexivity.
    + left. exists s'. split; [exact Hin | reflexivity].
    + right. right. exact H.
Qed.

Lemma add_all_complete :
  forall (v s : PrimFloat.float) (sums : list PrimFloat.float),
    In s sums -> In (PrimFloat.add s v) (add_all v sums).
Proof.
  intros v s sums H. unfold add_all. rewrite in_rev_append. left.
  apply add_all_rev_complete. left. exists s. split; [exact H | reflexivity].
Qed.

Lemma pattern_scores_complete :
  forall (content : string) (p : CrisisKeywordPattern (A := binary64)),
    In (_evaluate_pattern content p) (pattern_scores p (negation_found content)).
Proof.
  intros content p. rewrite evaluate_pattern_counts. unfold pattern_scores.
  apply in_flat_map. exists (matches content (keywords p)). split.
  - apply upto_in, matches_le_length.
  - apply in_map_iff. exists (matches content (context_modifiers p)).
    split; [reflexivity|]. apply upto_in, matches_le_length.
Qed.

Lemma reach_step_fold :
  forall (sums vs acc : list PrimFloat.float),
    let res :=
      fold_left (fun acc v => if PrimFloat.ltb (float_of_Z 0) v
                              then merge_floats acc (add_all v sums)
                              else acc) vs acc in
    (forall z, In z acc -> In z res)
    /\ (forall v s, In v vs -> PrimFloat.ltb (float_of_Z 0) v = true ->
                    In s sums -> In (PrimFloat.add s v) res).
Proof.
  intros sums vs. induction vs as [|v vs IH]; intros acc res.
  - subst res. cbn. split; [tauto|]. intros v s [].
  - subst res. cbn [fold_left].
    destruct (IH (if PrimFloat.ltb (float_of_Z 0) v
                  then merge_floats acc (add_all v sums) else acc))
      as [Hkeep Hnew].
    split.
    + intros z Hz. apply Hkeep.
      destruct (PrimFloat.ltb (float_of_Z 0) v); [|exact Hz].
      apply merge_floats_complete. left. exact Hz.
    + intros v' s [<- | Hin] Hpos Hs.
      * apply Hkeep. rewrite Hpos. apply merge_floats_complete. right.
        apply add_all_complete. exact Hs.
      * apply Hnew; assumption.
Qed.

Lemma reach_step_complete :
  forall (content : string) (p : CrisisKeywordPattern (A := binary64))
         (sums : list PrimFloat.float) (st : list RiskFactor * PrimFloat.float * bool),
    In (snd (fst st)) sums ->
    In (snd (fst (pattern_step content st p)))
       (reach_step (negation_found content) sums p).
Proof.
  intros content p sums [[fs r] imm] H. cbn [fst snd] in H.
  unfold reach_step.
  destruct (reach_step_fold sums (pattern_scores p (negation_found content)) sums)
    as [Hkeep Hnew].
  unfold pattern_step.
  destruct (ltb (of_nat 0) (_evaluate_pattern content p)) eqn:Hpos.
  - cbn [fst snd]. apply Hnew; [apply pattern_scores_complete | exact Hpos | exact H].
  - cbn [fst snd]. apply Hkeep. exact H.
Qed.

Lemma pattern_loop_reachable :
  forall (content : string) (ps : list (CrisisKeywordPattern (A := binary64)))
         (sums : list PrimFloat.float) (st : list RiskFactor * PrimFloat.float * bool),
    In (snd (fst st)) sums ->
    In (snd (fst (fold_left (pattern_step content) ps st)))
       (fold_left (reach_step (negation_found content)) ps sums).
Proof.
  intros content ps. induction ps as [|p ps IH]; intros sums st H.
  - exact H.
  - cbn [fold_left]. apply IH. apply reach_step_complete. exact H.
Qed.

Lemma pattern_loop_factors :
  forall (A : Arith) (content : string) (ps : list CrisisKeywordPattern)
         (st : list RiskFactor * num * bool),
    (List.length (fst (fst (fold_left (pattern_step content) ps st)))
     <= List.length (fst (fst st)) + List.length ps)%nat.
Proof.
  intros A content ps. induction ps as [|p ps IH]; intros st.
  - cbn. lia.
  - cbn [fold_left]. eapply Nat.le_trans; [apply IH|].
    destruct st as [[fs r] imm]. unfold pattern_step.
    destruct (ltb _ _); cbn [fst snd List.length];
      [rewrite length_app; cbn|]; lia.
Qed.

Lemma reachable_risk_scores_complete :
  forall (neg : bool) (s : PrimFloat.float),
    In s (reachable_sums neg) ->
    In (pymin (A := binary64) s (lit 1.0)) (reachable_risk_scores neg).
Proof.
  intros neg s. unfold reachable_risk_scores.
  assert (G : forall l acc,
             (In s l \/ In (pymin (A := binary64) s (lit 1.0)) acc) ->
             In (pymin (A := binary64) s (lit 1.0))
                (fold_left (fun acc s => merge_floats acc [pymin (A := binary64) s (lit 1.0)]) l acc)).
  { induction l as [|x l IH]; intros acc H.
    - cbn. destruct H as [[] | H]. exact H.
    - cbn [fold_left]. apply IH. destruct H as [[<- | H] | H].
      + right. apply merge_floats_complete. right. left. reflexivity.
      + left. exact H.
      + right. apply merge_floats_complete. left. exact H. }
  intros H. apply G. left. exact H.
Qed.



Lemma in_bools : forall b : bool, In b bools.
Proof. intros []; cbn; tauto. Qed.

Lemma reachable_in_range :
  forall (neg : bool) (r : PrimFloat.float),
    In r (reachable_risk_scores neg) ->
    risk_in_range r = true /\ confidence_in_range r = true.
Proof.
  assert (H : forallb (fun neg =>
                forallb (fun r => risk_in_range r && confidence_in_range r)
                        (reachable_risk_scores neg))
              bools = true)
    by (vm_compute; reflexivity).
  intros neg r Hin. rewrite forallb_forall in H.
  specialize (H neg (in_bools neg)). rewrite forallb_forall in H.
  apply andb_true_iff, H, Hin.
Qed.

Lemma confidence_in_range_sound :
  forall (b1 b2 b3 : bool) (n : nat) (r : PrimFloat.float),
    (n <= 7)%nat ->
    confidence_in_range r = true ->
    PrimFloat.leb (lit 0.5) (confidence_of b1 b2 n r b3) = true
    /\ PrimFloat.leb (confidence_of b1 b2 n r b3) (lit 1.0) = true.
Proof.
  intros b1 b2 b3 n r Hn H.
  unfold confidence_in_range in H. rewrite forallb_forall in H.
  specialize (H n (upto_in _ _ Hn)).
  rewrite forallb_forall in H. specialize (H b1 (in_bools b1)).
  rewrite forallb_forall in H. specialize (H b2 (in_bools b2)).
  rewrite forallb_forall in H. specialize (H b3 (in_bools b3)).
  apply andb_true_iff in H. exact H.
Qed.

Lemma calculate_confidence_flags :
  forall (content : string) (factors : list RiskFactor) (r : PrimFloat.float),
    _calculate_confidence (A := binary64) content factors r
    = confidence_of (50 <? py_len (strip content))%nat
        (100 <? py_len (strip content))%nat
        (List.length factors) r
        (existsb (fun indicator => str_in indicator (lower content))
                 clear_indicators).
Proof. reflexivity. Qed.

Lemma assess_ranges_binary64 :
  forall (db : EventStore (A := binary64)) (now : Z)
         (user_id content trigger_source : string),
    let a := assess_crisis_risk db now user_id content trigger_source in
    (assess_try db now user_id content trigger_source = Ok a
     /\ PrimFloat.leb (lit 0.0) (risk_score a) = true
     /\ PrimFloat.leb (risk_score a) (lit 1.0) = true
     /\ PrimFloat.leb (lit 0.5) (confidence a) = true
     /\ PrimFloat.leb (confidence a) (lit 1.0) = true)
    \/ ((exists e, assess_try db now user_id content trigger_source = Exc e)
        /\ a = _create_safe_default_assessment now user_id content).
Proof.
  intros db now uid content src a. subst a.
  unfold assess_crisis_risk, assess_try.
  pose proof (pattern_loop_reachable (lower content) crisis_patterns
                [float_of_Q 0.0] ([], lit 0.0, false)
                (or_introl eq_refl)) as Hr.
  pose proof (pattern_loop_factors binary64 (lower content) crisis_patterns
                ([], lit 0.0, false)) as Hn.
  destruct (fold_left _ _ _) as [[fs r] imm]. cbn [fst snd] in Hr, Hn.
  apply reachable_risk_scores_complete, reachable_in_range in Hr.
  destruct Hr as [Hrisk Hconf].
  apply andb_true_iff in Hrisk. destruct Hrisk as [Hr0 Hr1].
  pose proof (confidence_in_range_sound
                (50 <? py_len (strip content))%nat
                (100 <? py_len (strip content))%nat
                (existsb (fun indicator => str_in indicator (lower content))
                         clear_indicators)
                (List.length fs) _ Hn Hconf) as Hc.
  rewrite <- calculate_confidence_flags in Hc.
  destruct Hc as [Hc0 Hc1].
  destruct (negb _).
  - destruct (_store_crisis_event _ _ _) as [|e].
    + left. repeat split; assumption.
    + right. split; [exists e; reflexivity | reflexivity].
  - left. repeat split; assumption.
Qed.

End ReachableFacts.

(** ** Confidence of an assessment *)

(** C10. An assessment that the [try] block of [assess_crisis_risk] built
    has a confidence of at least 0.5; the only other assessment that
    [assess_crisis_risk] returns is the safe default of the error path, whose
    confidence is 0.0.  So it is in exact arithmetic, where in addition a
    confidence below 0.5 marks the safe default, and so it is in binary64. *)
Theorem confidence_at_least_half_unless_default :
  (forall (db : EventStore (A := exact)) (now : Z)
          (user_id content trigger_source : string),
      let a := assess_crisis_risk db now user_id content trigger_source in
      ((assess_try db now user_id content trigger_source = Ok a
        /\ (0.5 <= confidence a)%Q)
       \/ ((exists e,
               assess_try db now user_id content trigger_source = Exc e)
           /\ a = _create_safe_default_assessment now user_id content
           /\ (confidence a == 0.0)%Q))
      /\ ((confidence a < 0.5)%Q ->
          a = _create_safe_default_assessment now user_id content
          /\ (confidence a == 0.0)%Q))
  /\ (forall (db : EventStore (A := binary64)) (now : Z)
             (user_id content trigger_source : string),
         let a := assess_crisis_risk db now user_id content trigger_source in
         (assess_try db now user_id content trigger_source = Ok a
          /\ PrimFloat.leb (lit 0.5) (confidence a) = true)
         \/ ((exists e,
                 assess_try db now user_id content trigger_source = Exc e)
             /\ a = _create_safe_default_assessment now user_id content
             /\ confidence a = lit 0.0)).
Proof.
  split.
  - intros db now uid content src a.
    pose proof (assess_confidence_cases db now uid content src) as H.
    fold a in H. split; [exact H|].
    intros Hlow. destruct H as [[_ H] | (_ & H & H0)].
    + lra.
    + split; assumption.
  - intros db now uid content src a.
    destruct (assess_ranges_binary64 db now uid content src)
      as [(Hok & _ & _ & Hc & _) | (He & Hd)].
    + left. split; assumption.
    + right. split; [exact He|]. split; [exact Hd|].
      fold a in Hd. rewrite Hd. reflexivity.
Qed.

(** ** The order of binary64

    The comparisons of binary64 are those of its specification
    ([FloatAxioms]); on it they are transitive. *)

Ltac sf_order :=
  repeat match goal with
  | |- context [Z.compare ?a ?b] => destruct (Z.compare_spec a b)
  | |- context [Pos.compare_cont Eq ?a ?b] =>
      change (Pos.compare_cont Eq a b) with (Pos.compare a b);
      destruct (Pos.compare_spec a b)
  end;
  cbn; try discriminate; try reflexivity; try (intros; exfalso; lia).

Lemma SFltb_leb_trans :
  forall x y z : SpecFloat.spec_float,
    SpecFloat.SFltb x y = true -> SpecFloat.SFleb y z = true ->
    SpecFloat.SFltb x z = true.
Proof.
  intros x y z. unfold SpecFloat.SFltb, SpecFloat.SFleb, SpecFloat.SFcompare.
  destruct x as [[]|[]| |[] mx ex], y as [[]|[]| |[] my ey],
           z as [[]|[]| |[] mz ez];
    try discriminate; try reflexivity; sf_order.
Qed.

Lemma SFltb_leb :
  forall x y : SpecFloat.spec_float,
    SpecFloat.SFltb x y = true -> SpecFloat.SFleb x y = true.
Proof.
  intros x y. unfold SpecFloat.SFltb, SpecFloat.SFleb.
  destruct (SpecFloat.SFcompare x y) as [[]|]; try discriminate; reflexivity.
Qed.

Lemma SFleb_trans :
  forall x y z : SpecFloat.spec_float,
    SpecFloat.SFleb x y = true -> SpecFloat.SFleb y z = true ->
    SpecFloat.SFleb x z = true.
Proof.
  intros x y z. unfold SpecFloat.SFleb, SpecFloat.SFcompare.
  destruct x as [[]|[]| |[] mx ex], y as [[]|[]| |[] my ey],
           z as [[]|[]| |[] mz ez];
    try discriminate; try reflexivity; sf_order.
Qed.

Lemma float_leb_trans :
  forall x y z : PrimFloat.float,
    PrimFloat.leb x y = true -> PrimFloat.leb y z = true ->
    PrimFloat.leb x z = true.
Proof.
  intros x y z. rewrite !FloatAxioms.leb_spec. apply SFleb_trans.
Qed.

Lemma float_ltb_leb_trans :
  forall x y z : PrimFloat.float,
    PrimFloat.ltb x y = true -> PrimFloat.leb y z = true ->
    PrimFloat.ltb x z = true.
Proof.
  intros x y z. rewrite !FloatAxioms.ltb_spec, FloatAxioms.leb_spec.
  apply SFltb_leb_trans.
Qed.

Lemma float_ltb_trans :
  forall x y z : PrimFloat.float,
    PrimFloat.ltb x y = true -> PrimFloat.ltb y z = true ->
    PrimFloat.ltb x z = true.
Proof.
  intros x y z H1 H2. apply (float_ltb_leb_trans x y z H1).
  rewrite FloatAxioms.leb_spec. apply SFltb_leb.
  rewrite <- FloatAxioms.ltb_spec. exact H2.
Qed.

Lemma SFltb_irrefl :
  forall x : SpecFloat.spec_float, SpecFloat.SFltb x x = false.
Proof.
  intros x. unfold SpecFloat.SFltb, SpecFloat.SFcompare.
  destruct x as [[]|[]| |[] mx ex]; try reflexivity;
    rewrite Z.compare_refl;
    change (Pos.compare_cont Eq mx mx) with (Pos.compare mx mx);
    rewrite Pos.compare_refl; reflexivity.
Qed.

Lemma float_ltb_not_geb :
  forall x y : PrimFloat.float,
    PrimFloat.ltb x y = true -> PrimFloat.leb y x = true -> False.
Proof.
  intros x y Hlt Hle.
  pose proof (float_ltb_leb_trans x y x Hlt Hle) as H.
  rewrite FloatAxioms.ltb_spec, SFltb_irrefl in H. discriminate H.
Qed.

(** ** Confidence grows with the factors and with the risk score *)

Lemma confidence_le_spec :
  forall r r' : PrimFloat.float,
    confidence_le r r' = true ->
    forall (b1 b2 b3 : bool) (n : nat),
      (n <= 10)%nat ->
      PrimFloat.leb (confidence_of b1 b2 n r b3)
                    (confidence_of b1 b2 n r' b3) = true.
Proof.
  intros r r' H b1 b2 b3 n Hn. unfold confidence_le in H.
  rewrite forallb_forall in H. specialize (H n (upto_in _ _ Hn)).
  rewrite forallb_forall in H. specialize (H b1 (in_bools b1)).
  rewrite forallb_forall in H. specialize (H b2 (in_bools b2)).
  rewrite forallb_forall in H. exact (H b3 (in_bools b3)).
Qed.

Lemma confidence_le_intro :
  forall r r' : PrimFloat.float,
    (forall (b1 b2 b3 : bool) (n : nat),
        (n <= 10)%nat ->
        PrimFloat.leb (confidence_of b1 b2 n r b3)
                      (confidence_of b1 b2 n r' b3) = true) ->
    confidence_le r r' = true.
Proof.
  intros r r' H. unfold confidence_le.
  apply forallb_forall. intros n Hn.
  apply forallb_forall. intros b1 _.
  apply forallb_forall. intros b2 _.
  apply forallb_forall. intros b3 _.
  apply H. unfold upto in Hn. apply in_seq in Hn. lia.
Qed.

Lemma confidence_grows_with_factors_spec :
  forall r : PrimFloat.float,
    confidence_grows_with_factors r = true ->
    forall (b1 b2 b3 : bool) (n n' : nat),
      (n <= n')%nat -> (n' <= 10)%nat ->
      PrimFloat.leb (confidence_of b1 b2 n r b3)
                    (confidence_of b1 b2 n' r b3) = true
      /\ PrimFloat.leb (confidence_of b1 b2 n' r b3) (lit 1.0) = true.
Proof.
  intros r H b1 b2 b3 n n' Hn Hn'. unfold confidence_grows_with_factors in H.
  rewrite forallb_forall in H.
  specialize (H n (upto_in _ _ (Nat.le_trans _ _ _ Hn Hn'))).
  rewrite forallb_forall in H. specialize (H n' (upto_in _ _ Hn')).
  apply Nat.leb_le in Hn. rewrite Hn in H. cbn [negb orb] in H.
  rewrite forallb_forall in H. specialize (H b1 (in_bools b1)).
  rewrite forallb_forall in H. specialize (H b2 (in_bools b2)).
  rewrite forallb_forall in H. specialize (H b3 (in_bools b3)).
  apply andb_true_iff in H. exact H.
Qed.

Lemma ascending_head :
  forall (l : list PrimFloat.float) (r : PrimFloat.float),
    ascending_with_confidence (r :: l) = true ->
    forall r', In r' l ->
      PrimFloat.ltb r r' = true /\ confidence_le r r' = true.
Proof.
  induction l as [|x l IH]; intros r H r' Hin; [contradiction|].
  cbn [ascending_with_confidence] in H.
  apply andb_true_iff in H. destruct H as [H Hrest].
  apply andb_true_iff in H. destruct H as [_ H].
  apply andb_true_iff in H. destruct H as [Hlt Hle].
  destruct Hin as [<- | Hin]; [split; assumption|].
  destruct (IH x Hrest r' Hin) as [Hlt' Hle']. split.
  - exact (float_ltb_trans _ _ _ Hlt Hlt').
  - apply confidence_le_intro. intros b1 b2 b3 n Hn.
    exact (float_leb_trans _ _ _
             (confidence_le_spec _ _ Hle b1 b2 b3 n Hn)
             (confidence_le_spec _ _ Hle' b1 b2 b3 n Hn)).
Qed.

Lemma ascending_factors :
  forall l : list PrimFloat.float,
    ascending_with_confidence l = true ->
    forall r, In r l -> confidence_grows_with_factors r = true.
Proof.
  induction l as [|x l IH]; intros H r Hr; [contradiction|].
  cbn [ascending_with_confidence] in H.
  apply andb_true_iff in H. destruct H as [H Hrest].
  apply andb_true_iff in H. destruct H as [Hx _].
  destruct Hr as [<- | Hr]; [exact Hx | exact (IH Hrest r Hr)].
Qed.

Lemma ascending_sound :
  forall l : list PrimFloat.float,
    ascending_with_confidence l = true ->
    forall r r', In r l -> In r' l ->
      PrimFloat.leb r r' = true -> confidence_le r r' = true.
Proof.
  induction l as [|x l IH]; intros H r r' Hr Hr' Hle; [contradiction|].
  pose proof (ascending_head l x H) as Hhead.
  pose proof (ascending_factors _ H x (or_introl eq_refl)) as Hx.
  cbn [ascending_with_confidence] in H.
  apply andb_true_iff in H. destruct H as [_ Hrest].
  destruct Hr as [<- | Hr], Hr' as [<- | Hr'].
  - apply confidence_le_intro. intros b1 b2 b3 n Hn.
    apply (confidence_grows_with_factors_spec _ Hx b1 b2 b3 n n (le_n n) Hn).
  - apply Hhead, Hr'.
  - exfalso. destruct (Hhead r Hr) as [Hlt _].
    exact (float_ltb_not_geb _ _ Hlt Hle).
  - exact (IH Hrest r r' Hr Hr' Hle).
Qed.

Lemma every_risk_score_ascends :
  ascending_with_confidence every_risk_score = true.
Proof. vm_compute. reflexivity. Qed.

Lemma confidence_monotone_binary64 :
  forall (content : string) (factors factors' : list RiskFactor)
         (neg neg' : bool) (risk_score risk_score' : PrimFloat.float),
    (List.length factors <= List.length factors')%nat ->
    (List.length factors' <= 10)%nat ->
    In risk_score (reachable_risk_scores neg) ->
    In risk_score' (reachable_risk_scores neg') ->
    PrimFloat.leb risk_score risk_score' = true ->
    PrimFloat.leb
      (_calculate_confidence (A := binary64) content factors risk_score)
      (_calculate_confidence (A := binary64) content factors' risk_score')
    = true
    /\ PrimFloat.leb
         (_calculate_confidence (A := binary64) content factors' risk_score')
         (lit 1.0) = true.
Proof.
  intros content fs fs' neg neg' r r' Hlen Hten Hr Hr' Hle.
  assert (Hin : forall b x, In x (reachable_risk_scores b) ->
                            In x every_risk_score).
  { intros b x Hx. unfold every_risk_score. apply merge_floats_complete.
    destruct b; [left | right]; exact Hx. }
  pose proof (ascending_sound _ every_risk_score_ascends r r'
                (Hin _ _ Hr) (Hin _ _ Hr') Hle) as Hrisk.
  pose proof (ascending_factors _ every_risk_score_ascends r' (Hin _ _ Hr'))
    as Hfactors.
  rewrite !calculate_confidence_flags.
  set (b1 := (50 <? py_len (strip content))%nat).
  set (b2 := (100 <? py_len (strip content))%nat).
  set (b3 := existsb _ clear_indicators).
  destruct (confidence_grows_with_factors_spec _ Hfactors b1 b2 b3
              (List.length fs) (List.length fs') Hlen Hten) as [Hf Hone].
  split; [|exact Hone].
  apply (float_leb_trans _ (confidence_of b1 b2 (List.length fs) r' b3)).
  - apply (confidence_le_spec _ _ Hrisk). lia.
  - exact Hf.
Qed.

(** C8. For a fixed content, the confidence does not decrease when the
    number of detected factors grows, nor when the risk score grows, and it
    never exceeds 1.0: in exact arithmetic for all risk scores, and in
    binary64 for all the risk scores that an assessment can have
    ([reachable_risk_scores], for a content with or without a negation) and
    up to ten factors, as many as [RiskFactor] has members. *)
Theorem confidence_monotone :
  forall (content : string) (factors factors' : list RiskFactor),
    (List.length factors <= List.length factors')%nat ->
    (forall risk_score risk_score' : Q,
        (risk_score <= risk_score')%Q ->
        (_calculate_confidence (A := exact) content factors risk_score
         <= _calculate_confidence (A := exact) content factors' risk_score')%Q
        /\ (_calculate_confidence (A := exact) content factors' risk_score'
            <= 1.0)%Q)
    /\ ((List.length factors' <= 10)%nat ->
        forall (neg neg' : bool) (risk_score risk_score' : PrimFloat.float),
          In risk_score (reachable_risk_scores neg) ->
          In risk_score' (reachable_risk_scores neg') ->
          PrimFloat.leb risk_score risk_score' = true ->
          PrimFloat.leb
            (_calculate_confidence (A := binary64) content factors risk_score)
            (_calculate_confidence (A := binary64) content factors'
               risk_score')
          = true
          /\ PrimFloat.leb
               (_calculate_confidence (A := binary64) content factors'
                  risk_score')
               (lit 1.0) = true).
Proof.
  intros content fs fs' Hlen. split.
  - intros r r' Hr.
    exact (confidence_monotone_exact content fs fs' r r' Hlen Hr).
  - intros Hten neg neg' r r' Hr Hr' Hle.
    exact (confidence_monotone_binary64 content fs fs' neg neg' r r'
             Hlen Hten Hr Hr' Hle).
Qed.

Lemma confidence_monotone_witness :
  (forall risk_score risk_score' : Q,
      (risk_score <= risk_score')%Q ->
      (_calculate_confidence (A := exact) long_message [DEPRESSION] risk_score
       <= _calculate_confidence (A := exact) long_message
            [DEPRESSION; ANXIETY] risk_score')%Q
      /\ (_calculate_confidence (A := exact) long_message
            [DEPRESSION; ANXIETY] risk_score' <= 1.0)%Q)
  /\ ((List.length [DEPRESSION; ANXIETY] <= 10)%nat ->
      forall (neg neg' : bool) (risk_score risk_score' : PrimFloat.float),
        In risk_score (reachable_risk_scores neg) ->
        In risk_score' (reachable_risk_scores neg') ->
        PrimFloat.leb risk_score risk_score' = true ->
        PrimFloat.leb
          (_calculate_confidence (A := binary64) long_message [DEPRESSION]
             risk_score)
          (_calculate_confidence (A := binary64) long_message
             [DEPRESSION; ANXIETY] risk_score')
        = true
        /\ PrimFloat.leb
             (_calculate_confidence (A := binary64) long_message
                [DEPRESSION; ANXIETY] risk_score')
             (lit 1.0) = true).
Proof.
  apply (confidence_monotone long_message [DEPRESSION] [DEPRESSION; ANXIETY]).
  cbn. apply le_S, le_n.
Defined.

(** * Further properties: the service and the routes that call it *)

(** ** The pattern loop and the fields of an assessment *)

Section LoopFacts.

Context {A : Arith}.
Local Open Scope py_scope.

Lemma pattern_loop_detected :
  forall (content : string) (ps : list CrisisKeywordPattern)
         (st : list RiskFactor * num * bool),
    fst (fst (fold_left (pattern_step content) ps st))
    = fst (fst st)
      ++ map risk_factor
           (filter (fun p => _evaluate_pattern content p >? of_nat 0) ps).
Proof.
  intros content ps. induction ps as [|p ps IH]; intros st.
  - cbn. rewrite app_nil_r. reflexivity.
  - cbn [fold_left filter]. rewrite IH.
    destruct st as [[fs r] imm]. unfold pattern_step.
    destruct (ltb (of_nat 0) (_evaluate_pattern content p)); cbn [fst snd map].
    + rewrite <- app_assoc. reflexivity.
    + reflexivity.
Qed.

Lemma pattern_step_immediate :
  forall (content : string) (p : CrisisKeywordPattern)
         (st : list RiskFactor * num * bool),
    snd (pattern_step content st p) = true ->
    snd st = true
    \/ (requires_immediate_action p = true
        /\ In (risk_factor p) (fst (fst (pattern_step content st p)))).
Proof.
  intros content p [[fs r] imm] H. unfold pattern_step in *.
  destruct (ltb (of_nat 0) (_evaluate_pattern content p)); cbn [fst snd] in *.
  - destruct (requires_immediate_action p); cbn [andb] in H.
    + destruct imm; [left; reflexivity|]. right. split; [reflexivity|].
      apply in_or_app. right. left. reflexivity.
    + left. exact H.
  - left. exact H.
Qed.

Lemma pattern_loop_immediate :
  forall (content : string) (ps : list CrisisKeywordPattern)
         (st : list RiskFactor * num * bool),
    snd (fold_left (pattern_step content) ps st) = true ->
    snd st = true
    \/ exists p, In p ps /\ requires_immediate_action p = true
                 /\ In (risk_factor p)
                       (fst (fst (fold_left (pattern_step content) ps st))).
Proof.
  intros content ps. induction ps as [|p ps IH]; intros st H.
  - left. exact H.
  - cbn [fold_left] in *. destruct (IH _ H) as [Hs | (q & Hq & Hreq & Hin)].
    + destruct (pattern_step_immediate _ _ _ Hs) as [Hst | [Hreq Hin]].
      * left. exact Hst.
      * right. exists p. split; [left; reflexivity|]. split; [exact Hreq|].
        rewrite pattern_loop_detected. apply in_or_app. left. exact Hin.
    + right. exists q. split; [right; exact Hq|]. split; assumption.
Qed.

(** What the [try] block returns, field by field. *)
Lemma assess_try_fields :
  forall (db : EventStore) (now : Z) (uid content src : string)
         (a : RiskAssessment),
    assess_try db now uid content src = Ok a ->
    let loop := fold_left (pattern_step (lower content)) crisis_patterns
                          ([], lit 0.0, false) in
    detected_factors a = fst (fst loop)
    /\ risk_score a = pymin (snd (fst loop)) (lit 1.0)
    /\ immediate_action_required a = snd loop
    /\ crisis_level a
       = _determine_crisis_level (risk_score a) (detected_factors a)
    /\ confidence a
       = _calculate_confidence content (detected_factors a) (risk_score a)
    /\ recommended_interventions a
       = _generate_interventions (crisis_level a) (detected_factors a)
    /\ safety_resources a
       = _get_relevant_resources (crisis_level a) (detected_factors a)
    /\ escalation_needed a
       = level_in (crisis_level a) [HIGH; CRITICAL]
         || immediate_action_required a
         || (risk_score a >? lit 0.8)
    /\ user_id a = uid /\ trigger_content a = content.
Proof.
  intros db now uid content src a H loop. subst loop.
  unfold assess_try in H.
  destruct (fold_left _ _ _) as [[fs r] imm]. cbn [fst snd].
  destruct (negb _); [destruct (_store_crisis_event _ _ _)|];
    try discriminate H; injection H as <-; cbn; repeat split.
Qed.

Lemma catalog_immediate_factors :
  forall p : CrisisKeywordPattern,
    In p crisis_patterns -> requires_immediate_action p = true ->
    risk_factor p = SUICIDAL_IDEATION \/ risk_factor p = SELF_HARM.
Proof.
  intros p Hin Hreq. cbn in Hin.
  repeat (destruct Hin as [<- | Hin];
          [cbn in Hreq |- *; first [discriminate Hreq | tauto]|]).
  contradiction.
Qed.
End LoopFacts.

Section LevelFacts.

Context {A : Arith}.
Local Open Scope py_scope.

Lemma factor_in_In :
  forall (f : RiskFactor) (fs : list RiskFactor),
    factor_in f fs = true <-> In f fs.
Proof.
  intros f fs. unfold factor_in. rewrite existsb_exists. split.
  - intros (x & Hx & E). destruct f, x; try discriminate E; exact Hx.
  - intros H. exists f. split; [exact H|]. destruct f; reflexivity.
Qed.

Lemma level_floors :
  forall (risk_score : num) (factors : list RiskFactor),
    let level := _determine_crisis_level risk_score factors in
    ((In SUICIDAL_IDEATION factors \/ In SELF_HARM factors) ->
       level = HIGH \/ level = CRITICAL)
    /\ (In HOPELESSNESS factors ->
          level = MEDIUM \/ level = HIGH \/ level = CRITICAL)
    /\ (level = NONE -> factors = [])
    /\ (level = CRITICAL -> In SUICIDAL_IDEATION factors).
Proof.
  intros r fs level. subst level. unfold _determine_crisis_level.
  repeat split.
  - intros H.
    assert (E : factor_in SUICIDAL_IDEATION fs || factor_in SELF_HARM fs
                = true).
    { apply orb_true_iff. rewrite !factor_in_In. exact H. }
    destruct (factor_in SUICIDAL_IDEATION fs), (factor_in SELF_HARM fs),
             (ltb (lit 0.8) r), (ltb (lit 0.7) r);
      cbn in E |- *; try discriminate E; tauto.
  - intros H. apply factor_in_In in H. rewrite H.
    destruct (factor_in SUICIDAL_IDEATION fs && ltb (lit 0.8) r); [tauto|].
    destruct (_ || _ || _ || _); [tauto|].
    rewrite !orb_true_r. tauto.
  - intros H. destruct fs as [|f fs]; [reflexivity|]. exfalso. revert H.
    cbn [List.length Nat.leb].
    destruct (factor_in SUICIDAL_IDEATION (f :: fs) && ltb (lit 0.8) r);
      [discriminate|].
    destruct (_ || _ || _ || _); [discriminate|].
    destruct (_ || _ || _); [discriminate|].
    rewrite orb_true_r. discriminate.
  - destruct (factor_in SUICIDAL_IDEATION fs) eqn:E.
    + intros _. apply factor_in_In. exact E.
    + cbn [andb].
      destruct (_ || _ || _ || _); [discriminate|].
      destruct (_ || _ || _); [discriminate|].
      destruct (_ || _); discriminate.
Qed.

(** X1. Whatever the risk score: a detected suicidal ideation or self-harm
    gives level HIGH or CRITICAL, a detected hopelessness at least MEDIUM;
    level NONE is given only when nothing is detected, and level CRITICAL
    only when suicidal ideation is. *)
Theorem determine_crisis_level_floors :
  forall (risk_score : num) (factors : list RiskFactor),
    let level := _determine_crisis_level risk_score factors in
    ((In SUICIDAL_IDEATION factors \/ In SELF_HARM factors) ->
       level = HIGH \/ level = CRITICAL)
    /\ (In HOPELESSNESS factors ->
          level = MEDIUM \/ level = HIGH \/ level = CRITICAL)
    /\ (level = NONE -> factors = [])
    /\ (level = CRITICAL -> In SUICIDAL_IDEATION factors).
Proof. exact level_floors. Qed.

End LevelFacts.

(** ** Escalation of an assessment *)

Section EscalationFacts.

Context {A : Arith}.
Local Open Scope py_scope.

(** The one fact about the arithmetic that is needed: a score above 0.8 is
    above 0.7. *)
Hypothesis above_08_above_07 :
  forall r : num, (r >? lit 0.8) = true -> (r >? lit 0.7) = true.

Lemma level_in_high_critical :
  forall level : CrisisLevel,
    level_in level [HIGH; CRITICAL] = true
    <-> level = HIGH \/ level = CRITICAL.
Proof.
  intros level. destruct level; cbn; split; intros H;
    try reflexivity; try discriminate H; try tauto;
    destruct H as [H | H]; discriminate H.
Qed.

Lemma level_above_07 :
  forall (r : num) (fs : list RiskFactor),
    (r >? lit 0.7) = true ->
    _determine_crisis_level r fs = HIGH
    \/ _determine_crisis_level r fs = CRITICAL.
Proof.
  intros r fs H. unfold _determine_crisis_level. rewrite H.
  destruct (factor_in SUICIDAL_IDEATION fs && ltb (lit 0.8) r); cbn; tauto.
Qed.

Lemma assess_escalation :
  forall (db : EventStore) (now : Z) (uid content src : string),
    let a := assess_crisis_risk db now uid content src in
    escalation_needed a = level_in (crisis_level a) [HIGH; CRITICAL]
    /\ (immediate_action_required a = true ->
        (In SUICIDAL_IDEATION (detected_factors a)
         \/ In SELF_HARM (detected_factors a))
        /\ escalation_needed a = true).
Proof.
  intros db now uid content src a. subst a. unfold assess_crisis_risk.
  destruct (assess_try db now uid content src) as [a | e] eqn:E.
  - destruct (assess_try_fields db now uid content src a E)
      as (Hf & Hr & Hi & Hl & _ & _ & _ & He & _).
    assert (Himm : immediate_action_required a = true ->
                   In SUICIDAL_IDEATION (detected_factors a)
                   \/ In SELF_HARM (detected_factors a)).
    { intros H. rewrite Hi in H.
      destruct (pattern_loop_immediate _ _ _ H) as [H0 | (p & Hp & Hreq & Hin)];
        [discriminate H0|].
      rewrite <- Hf in Hin.
      destruct (catalog_immediate_factors p Hp Hreq) as [Ep | Ep];
        rewrite Ep in Hin; tauto. }
    assert (Hhigh : immediate_action_required a = true
                    \/ (risk_score a >? lit 0.8) = true ->
                    level_in (crisis_level a) [HIGH; CRITICAL] = true).
    { intros H. apply level_in_high_critical. rewrite Hl.
      destruct H as [H | H].
      - apply (proj1 (level_floors _ _)). exact (Himm H).
      - apply level_above_07, above_08_above_07, H. }
    split.
    + rewrite He.
      destruct (level_in (crisis_level a) [HIGH; CRITICAL]) eqn:EL;
        [reflexivity|].
      destruct (immediate_action_required a) eqn:EI;
        [discriminate (Hhigh (or_introl eq_refl))|].
      destruct (ltb (lit 0.8) (risk_score a)) eqn:ER;
        [discriminate (Hhigh (or_intror eq_refl))|].
      reflexivity.
    + intros H. split; [exact (Himm H)|].
      rewrite He, H. rewrite orb_true_r. reflexivity.
  - cbn. split; [reflexivity | discriminate].
Qed.

End EscalationFacts.

(** ** Detected factors *)

Lemma matches_positive :
  forall (content : string) (terms : list string),
    (1 <=? matches content terms)%nat
    = existsb (fun term => str_in term content) terms.
Proof.
  intros content terms. induction terms as [|t terms IH].
  - reflexivity.
  - rewrite matches_cons. cbn [existsb].
    destruct (str_in t content); [reflexivity | exact IH].
Qed.

Lemma NoDup_map_filter :
  forall (X Y : Type) (f : X -> Y) (g : X -> bool) (l : list X),
    NoDup (map f l) -> NoDup (map f (filter g l)).
Proof.
  intros X Y f g l. induction l as [|x l IH]; intros H.
  - constructor.
  - cbn [map] in H. inversion H as [|? ? Hnotin Hnodup]; subst.
    cbn [filter]. destruct (g x); [|apply IH, Hnodup].
    cbn [map]. constructor; [|apply IH, Hnodup].
    intros Hin. apply Hnotin. apply in_map_iff in Hin.
    destruct Hin as (y & Hy & Hyin). apply filter_In in Hyin.
    apply in_map_iff. exists y. tauto.
Qed.

Lemma catalog_factors :
  forall A : Arith,
    map risk_factor crisis_patterns
    = [SUICIDAL_IDEATION; SELF_HARM; HOPELESSNESS; DEPRESSION;
       SUBSTANCE_ABUSE; ISOLATION; TRAUMA].
Proof. reflexivity. Qed.

Lemma catalog_factors_NoDup :
  forall A : Arith, NoDup (map risk_factor crisis_patterns).
Proof.
  intros A. rewrite catalog_factors.
  repeat (constructor; [cbn; intuition discriminate|]). constructor.
Qed.

(** X2. In any arithmetic and for any state of the database, the detected
    factors of an assessment hold no factor twice, and only factors that a
    pattern of the catalog stands for: anxiety, relationship issues and
    financial stress are never detected. *)
Theorem detected_factors_of_catalog :
  forall (A : Arith) (db : EventStore) (now : Z)
         (user_id content trigger_source : string),
    let a := assess_crisis_risk db now user_id content trigger_source in
    NoDup (detected_factors a)
    /\ (forall f, In f (detected_factors a) ->
          In f [SUICIDAL_IDEATION; SELF_HARM; HOPELESSNESS; DEPRESSION;
                SUBSTANCE_ABUSE; ISOLATION; TRAUMA])
    /\ ~ In ANXIETY (detected_factors a)
    /\ ~ In RELATIONSHIP_ISSUES (detected_factors a)
    /\ ~ In FINANCIAL_STRESS (detected_factors a).
Proof.
  intros A db now uid content src a.
  assert (H : NoDup (detected_factors a)
              /\ forall f, In f (detected_factors a) ->
                   In f [SUICIDAL_IDEATION; SELF_HARM; HOPELESSNESS;
                         DEPRESSION; SUBSTANCE_ABUSE; ISOLATION; TRAUMA]).
  { subst a. unfold assess_crisis_risk.
    destruct (assess_try db now uid content src) as [a | e] eqn:E.
    - destruct (assess_try_fields db now uid content src a E) as (Hf & _).
      rewrite Hf, pattern_loop_detected. cbn [fst app]. split.
      + apply NoDup_map_filter, catalog_factors_NoDup.
      + intros f Hin. rewrite <- (catalog_factors A).
        apply in_map_iff in Hin. destruct Hin as (p & Hp & Hin).
        apply filter_In in Hin. apply in_map_iff. exists p. tauto.
    - cbn. split; [constructor | intros f []]. }
  destruct H as [Hnodup Hin]. split; [exact Hnodup|]. split; [exact Hin|].
  repeat split; intros H; apply Hin in H; cbn in H; intuition discriminate.
Qed.

(** ** Detection by keyword, in binary64 *)

Lemma hit_iff_keyword_binary64 :
  forall (pattern : CrisisKeywordPattern (A := binary64)) (content : string),
    In pattern crisis_patterns ->
    (_evaluate_pattern content pattern >? of_nat 0)%py
    = keyword_occurs content pattern.
Proof.
  intros pattern content Hin.
  assert (H : forallb (counts_satisfy (positive_check (A := binary64)))
                      crisis_patterns = true)
    by (vm_compute; reflexivity).
  pose proof (catalog_satisfies _ H pattern Hin content
                (negation_found content)) as Hc.
  unfold positive_check in Hc. rewrite <- evaluate_pattern_counts in Hc.
  apply eqb_prop in Hc. rewrite Hc. apply matches_positive.
Qed.

Lemma factors_by_keyword_binary64 :
  forall (db : EventStore (A := binary64)) (now : Z)
         (uid content src : string) (a : RiskAssessment (A := binary64)),
    assess_try db now uid content src = Ok a ->
    detected_factors a
    = map risk_factor (filter (keyword_occurs (lower content)) crisis_patterns).
Proof.
  intros db now uid content src a E.
  destruct (assess_try_fields db now uid content src a E) as (Hf & _).
  rewrite Hf, pattern_loop_detected. cbn [fst app]. f_equal.
  apply filter_ext_in. intros p Hp. apply hit_iff_keyword_binary64, Hp.
Qed.

(** X3. In binary64: the factors of an assessment built by the [try] block
    are those of the catalog patterns of which a keyword occurs in the
    lower-cased content, in the order of the catalog.  Modifiers and
    negation terms decide nothing about detection. *)
Theorem detected_factors_by_keyword :
  forall (db : EventStore (A := binary64)) (now : Z)
         (user_id content trigger_source : string)
         (a : RiskAssessment (A := binary64)),
    assess_try db now user_id content trigger_source = Ok a ->
    detected_factors a
    = map risk_factor (filter (keyword_occurs (lower content)) crisis_patterns).
Proof. exact factors_by_keyword_binary64. Qed.

Lemma detected_factors_by_keyword_witness :
  detected_factors
    (assess_crisis_risk (A := binary64) store_up 0 "42" plan_tonight "chat")
  = map risk_factor
        (filter (keyword_occurs (lower plan_tonight))
                (crisis_patterns (A := binary64))).
Proof.
  apply (detected_factors_by_keyword store_up 0 "42" plan_tonight "chat").
  vm_compute. reflexivity.
Defined.

Lemma above_08_above_07_exact :
  forall r : Q, Qltb 0.8 r = true -> Qltb 0.7 r = true.
Proof.
  intros r H. apply Qltb_true_iff in H. apply Qltb_true_iff. lra.
Qed.

Lemma above_08_above_07_binary64 :
  forall r : PrimFloat.float,
    PrimFloat.ltb (float_of_Q 0.8) r = true ->
    PrimFloat.ltb (float_of_Q 0.7) r = true.
Proof.
  intros r H.
  apply (float_ltb_trans _ (float_of_Q 0.8)); [reflexivity | exact H].
Qed.

(** X4. For every content and every state of the database, in exact
    arithmetic and in binary64: an assessment needs escalation exactly when
    its level is HIGH or CRITICAL; and when it asks for an immediate action,
    suicidal ideation or self-harm is among its factors and it needs
    escalation. *)
Theorem escalation_needed_iff_high_or_critical :
  (forall (db : EventStore (A := exact)) (now : Z)
          (user_id content trigger_source : string),
      let a := assess_crisis_risk db now user_id content trigger_source in
      escalation_needed a = level_in (crisis_level a) [HIGH; CRITICAL]
      /\ (immediate_action_required a = true ->
          (In SUICIDAL_IDEATION (detected_factors a)
           \/ In SELF_HARM (detected_factors a))
          /\ escalation_needed a = true))
  /\ (forall (db : EventStore (A := binary64)) (now : Z)
             (user_id content trigger_source : string),
         let a := assess_crisis_risk db now user_id content trigger_source in
         escalation_needed a = level_in (crisis_level a) [HIGH; CRITICAL]
         /\ (immediate_action_required a = true ->
             (In SUICIDAL_IDEATION (detected_factors a)
              \/ In SELF_HARM (detected_factors a))
             /\ escalation_needed a = true)).
Proof.
  split.
  - exact (assess_escalation (A := exact) above_08_above_07_exact).
  - exact (assess_escalation (A := binary64) above_08_above_07_binary64).
Qed.

Lemma keyword_occurs_detected :
  forall (db : EventStore (A := binary64)) (now : Z)
         (uid content src : string) (a : RiskAssessment (A := binary64))
         (p : CrisisKeywordPattern (A := binary64)),
    assess_try db now uid content src = Ok a ->
    In p crisis_patterns ->
    keyword_occurs (lower content) p = true ->
    In (risk_factor p) (detected_factors a).
Proof.
  intros db now uid content src a p E Hp Hk.
  rewrite (factors_by_keyword_binary64 db now uid content src a E).
  apply in_map, filter_In. split; assumption.
Qed.

Lemma assess_try_ok_result :
  forall (A : Arith) (db : EventStore) (now : Z) (uid content src : string)
         (a : RiskAssessment),
    assess_try db now uid content src = Ok a ->
    assess_crisis_risk db now uid content src = a.
Proof.
  intros A db now uid content src a E. unfold assess_crisis_risk.
  rewrite E. reflexivity.
Qed.

(** X5. In binary64, for an assessment built by the [try] block: when a
    keyword of the suicidal-ideation or of the self-harm pattern occurs in
    the lower-cased content, the level is HIGH or CRITICAL and escalation is
    needed, negated or not; when a keyword of the hopelessness pattern
    occurs, the level is at least MEDIUM; and the level is NONE exactly when no
    keyword of the catalog occurs. *)
Theorem keyword_floors :
  forall (db : EventStore (A := binary64)) (now : Z)
         (user_id content trigger_source : string)
         (a : RiskAssessment (A := binary64)),
    assess_try db now user_id content trigger_source = Ok a ->
    ((keyword_occurs (lower content) suicidal_ideation_pattern = true
      \/ keyword_occurs (lower content) self_harm_pattern = true) ->
       (crisis_level a = HIGH \/ crisis_level a = CRITICAL)
       /\ escalation_needed a = true)
    /\ (keyword_occurs (lower content) hopelessness_pattern = true ->
          crisis_level a = MEDIUM \/ crisis_level a = HIGH
          \/ crisis_level a = CRITICAL)
    /\ (crisis_level a = NONE <-> no_keyword_occurs (lower content) = true).
Proof.
  intros db now uid content src a E.
  destruct (assess_try_fields db now uid content src a E)
    as (_ & _ & _ & Hl & _).
  pose proof (level_floors (risk_score a) (detected_factors a)) as Hfloor.
  cbv zeta in Hfloor. rewrite <- Hl in Hfloor.
  destruct Hfloor as (Hhigh & Hmed & Hnone & _).
  pose proof (keyword_occurs_detected db now uid content src a) as Hdet.
  split; [|split].
  - intros Hk.
    assert (Hlevel : crisis_level a = HIGH \/ crisis_level a = CRITICAL).
    { apply Hhigh. destruct Hk as [Hk | Hk].
      - left. apply (Hdet suicidal_ideation_pattern E); [cbn; tauto | exact Hk].
      - right. apply (Hdet self_harm_pattern E); [cbn; tauto | exact Hk]. }
    split; [exact Hlevel|].
    pose proof (assess_escalation (A := binary64) above_08_above_07_binary64
                  db now uid content src) as Hesc.
    cbv zeta in Hesc. rewrite (assess_try_ok_result _ _ _ _ _ _ _ E) in Hesc.
    rewrite (proj1 Hesc). apply level_in_high_critical. exact Hlevel.
  - intros Hk. apply Hmed.
    apply (Hdet hopelessness_pattern E); [cbn; tauto | exact Hk].
  - split.
    + intros Hn. specialize (Hnone Hn).
      rewrite (factors_by_keyword_binary64 db now uid content src a E) in Hnone.
      unfold no_keyword_occurs. apply forallb_forall. intros p Hp.
      destruct (keyword_occurs (lower content) p) eqn:Hk.
      * assert (Hin : In (risk_factor p)
                         (map risk_factor
                            (filter (keyword_occurs (lower content))
                                    crisis_patterns)))
          by (apply in_map, filter_In; split; assumption).
        rewrite Hnone in Hin. destruct Hin.
      * unfold keyword_occurs in Hk. apply forallb_forall. intros k Hkin.
        apply negb_true_iff. destruct (str_in k (lower content)) eqn:Hs;
          [|reflexivity].
        assert (Hex : existsb (fun keyword => str_in keyword (lower content))
                              (keywords p) = true)
          by (apply existsb_exists; exists k; split; assumption).
        congruence.
    + intros Hno.
      pose proof (assess_no_keyword (A := binary64) eq_refl eq_refl eq_refl
                    eq_refl db now uid content src
                    (no_keyword_occurs_true binary64 _ Hno)) as Hq.
      cbv zeta in Hq. rewrite (assess_try_ok_result _ _ _ _ _ _ _ E) in Hq.
      exact (proj1 Hq).
Qed.

Lemma keyword_floors_witness :
  let content := "I would never hurt myself" in
  let a := assess_crisis_risk (A := binary64) store_up 0 "42" content "chat" in
  negation_found (lower content) = true
  /\ (crisis_level a = HIGH \/ crisis_level a = CRITICAL)
  /\ escalation_needed a = true.
Proof.
  split; [reflexivity|].
  apply (proj1 (keyword_floors store_up 0 "42" "I would never hurt myself"
                  "chat" _ eq_refl)).
  right. reflexivity.
Defined.

(** ** Ranges of the scores *)

Lemma assess_ranges_exact :
  forall (db : EventStore (A := exact)) (now : Z) (uid content src : string),
    let a := assess_crisis_risk db now uid content src in
    (0 <= risk_score a <= 1 /\ 0 <= confidence a <= 1)%Q.
Proof.
  intros db now uid content src a. subst a. unfold assess_crisis_risk.
  destruct (assess_try db now uid content src) as [a | e] eqn:E.
  - destruct (assess_try_fields db now uid content src a E)
      as (_ & Hr & _ & _ & Hc & _).
    pose proof (pattern_loop_nonneg (lower content) crisis_patterns
                  ([], 0.0%Q, false)) as Hn.
    cbn [fst snd] in Hn. specialize (Hn ltac:(lra)).
    assert (H0 : (0 <= risk_score a)%Q).
    { rewrite Hr. apply pymin_glb; [exact Hn | exact_arith; lra]. }
    assert (H1 : (risk_score a <= 1)%Q).
    { rewrite Hr. eapply Qle_trans; [apply pymin_le_r | exact_arith; lra]. }
    pose proof (confidence_at_least_half content (detected_factors a)
                  (risk_score a) H0) as Hc0.
    rewrite <- Hc in Hc0.
    assert (Hc1 : (confidence a <= 1)%Q).
    { rewrite Hc. unfold _calculate_confidence.
      eapply Qle_trans; [apply pymin_le_r | exact_arith; lra]. }
    repeat split; try assumption. lra.
  - cbn. lra.
Qed.

(** X6. For every content and every state of the database, the risk score
    and the confidence of the assessment lie in [0, 1], in exact arithmetic
    and in binary64. *)
Theorem assessment_scores_in_unit_interval :
  (forall (db : EventStore (A := exact)) (now : Z)
          (user_id content trigger_source : string),
      let a := assess_crisis_risk db now user_id content trigger_source in
      (0 <= risk_score a <= 1 /\ 0 <= confidence a <= 1)%Q)
  /\ (forall (db : EventStore (A := binary64)) (now : Z)
             (user_id content trigger_source : string),
         let a := assess_crisis_risk db now user_id content trigger_source in
         PrimFloat.leb (lit 0.0) (risk_score a) = true
         /\ PrimFloat.leb (risk_score a) (lit 1.0) = true
         /\ PrimFloat.leb (lit 0.0) (confidence a) = true
         /\ PrimFloat.leb (confidence a) (lit 1.0) = true).
Proof.
  split; [exact assess_ranges_exact|].
  intros db now uid content src a.
  destruct (assess_ranges_binary64 db now uid content src)
    as [(_ & H0 & H1 & Hc0 & Hc1) | (_ & Hd)].
  - fold a in H0, H1, Hc0, Hc1. repeat split; try assumption.
    apply (float_leb_trans _ (float_of_Q 0.5)); [reflexivity | exact Hc0].
  - fold a in Hd. rewrite Hd. repeat split.
Qed.

(** ** Resources and interventions *)

(** X7. [_get_relevant_resources] does not look at the detected factors.  At
    levels MEDIUM, HIGH and CRITICAL it hands out the three emergency
    resources of the catalog followed by its first two general ones; at
    levels NONE and LOW only these two, so no emergency line.  The other
    four general resources of the catalog are never handed out. *)
Theorem relevant_resources_by_level :
  forall (level : CrisisLevel) (factors : list RiskFactor),
    let resources := _get_relevant_resources level factors in
    resources = _get_relevant_resources level []
    /\ map rd_name resources
       = (if level_in level [MEDIUM; HIGH; CRITICAL]
          then ["988 Suicide & Crisis Lifeline"; "Crisis Text Line";
                "Samaritans"]
          else [])
         ++ ["Psychology Today Therapist Finder"; "BetterHelp Online Therapy"]
    /\ (forall name,
          In name ["National Suicide Prevention Lifeline"; "Mind (UK)";
                   "MY3 Support Network App"; "Safety Plan App"] ->
          ~ In name (map rd_name resources)).
Proof.
  intros level factors resources. subst resources.
  split; [reflexivity|]. split.
  - destruct level; reflexivity.
  - intros name Hname Hin.
    destruct level; cbn in Hname, Hin;
      repeat (destruct Hname as [<- | Hname];
              [repeat (destruct Hin as [Hin | Hin]; [discriminate Hin|]);
               exact Hin|]);
      exact Hname.
Qed.

Lemma generate_interventions_cases :
  forall (level : CrisisLevel) (factors : list RiskFactor),
    (level <> NONE ->
       _generate_interventions level factors = spec_base_interventions level)
    /\ _generate_interventions NONE [] = [].
Proof.
  intros level factors. split; [|reflexivity].
  intros H. unfold _generate_interventions.
  destruct (factor_in ISOLATION factors),
           (factor_in SUBSTANCE_ABUSE factors),
           (factor_in TRAUMA factors), level;
    try reflexivity; contradiction.
Qed.

(** X8. In any arithmetic: the interventions of an assessment built by the
    [try] block are exactly the base list of its level, five entries at
    every level but NONE and none at level NONE.  The factor-specific
    interventions (for isolation, substance abuse and trauma) never reach an
    assessment. *)
Theorem assessment_interventions :
  forall (A : Arith) (db : EventStore) (now : Z)
         (user_id content trigger_source : string) (a : RiskAssessment),
    assess_try db now user_id content trigger_source = Ok a ->
    recommended_interventions a = spec_base_interventions (crisis_level a)
    /\ List.length (recommended_interventions a)
       = (if CrisisLevel_eqb (crisis_level a) NONE then 0 else 5)%nat
    /\ (forall addition,
          In addition ["Focus on social connection and support";
                       "Consider addiction treatment resources";
                       "Seek trauma-informed therapy"] ->
          ~ In addition (recommended_interventions a)).
Proof.
  intros A db now uid content src a E.
  destruct (assess_try_fields db now uid content src a E)
    as (_ & _ & _ & Hl & _ & Hi & _).
  assert (Hbase : recommended_interventions a
                  = spec_base_interventions (crisis_level a)).
  { rewrite Hi. destruct (crisis_level a) eqn:El;
      try (apply generate_interventions_cases; discriminate).
    symmetry in Hl.
    rewrite (proj1 (proj2 (proj2 (level_floors _ _))) Hl). reflexivity. }
  split; [exact Hbase|]. rewrite Hbase. split.
  - destruct (crisis_level a); reflexivity.
  - intros addition Hadd Hin.
    destruct (crisis_level a); cbn in Hadd, Hin;
      repeat (destruct Hadd as [<- | Hadd];
              [repeat (destruct Hin as [Hin | Hin]; [discriminate Hin|]);
               exact Hin|]);
      exact Hadd.
Qed.

Lemma assessment_interventions_witness :
  let a := assess_crisis_risk (A := binary64) store_up 0 "42"
             "I feel so isolated" "chat" in
  In ISOLATION (detected_factors a)
  /\ recommended_interventions a = spec_base_interventions (crisis_level a)
  /\ List.length (recommended_interventions a)
     = (if CrisisLevel_eqb (crisis_level a) NONE then 0 else 5)%nat
  /\ (forall addition,
        In addition ["Focus on social connection and support";
                     "Consider addiction treatment resources";
                     "Seek trauma-informed therapy"] ->
        ~ In addition (recommended_interventions a)).
Proof.
  split; [left; reflexivity|].
  apply (assessment_interventions binary64 store_up 0 "42"
           "I feel so isolated" "chat").
  vm_compute. reflexivity.
Defined.

(** ** Assessment, then escalation *)

Section EscalateFacts.

Context {A : Arith}.

Lemma escalate_crisis_returned :
  forall (db : EventStore) (now : Z) (a : RiskAssessment) (etype : string),
    (forall actions,
        _update_crisis_event_escalation db (user_id a) actions = Returned) ->
    let r := escalate_crisis db now a etype in
    escalated r = true
    /\ error r = None
    /\ escalation_type r = Some etype
    /\ exists actions steps,
         actions_taken r = Some actions /\ next_steps r = Some steps
         /\ (List.length actions, List.length steps)
            = match crisis_level a with
              | CRITICAL => (4, 3)
              | HIGH => (3, 3)
              | _ => (0, 0)
              end%nat.
Proof.
  intros db now a etype H r. subst r. unfold escalate_crisis.
  destruct (crisis_level a); cbn [CrisisLevel_eqb app];
    rewrite H; cbn; repeat split; eexists; eexists; repeat split.
Qed.

Lemma rollback_returned :
  forall db : EventStore,
    rollback db = Returned ->
    (forall a src, _store_crisis_event db a src = Returned)
    /\ (forall uid actions,
          _update_crisis_event_escalation db uid actions = Returned).
Proof.
  intros db H. split.
  - intros a src. unfold _store_crisis_event.
    destruct (insert_event db a src); [reflexivity | exact H].
  - intros uid actions. unfold _update_crisis_event_escalation.
    destruct (update_latest_event db uid actions); [reflexivity | exact H].
Qed.

Lemma assess_try_store_returns :
  forall (db db' : EventStore) (now : Z) (uid content src : string),
    (forall a s, _store_crisis_event db a s = Returned) ->
    (forall a s, _store_crisis_event db' a s = Returned) ->
    assess_try db now uid content src = assess_try db' now uid content src.
Proof.
  intros db db' now uid content src H H'. unfold assess_try.
  destruct (fold_left _ _ _) as [[fs r] imm].
  destruct (negb _); [rewrite H, H'|]; reflexivity.
Qed.

End EscalateFacts.

(** X9. In any arithmetic: when the rollback of the database does not raise,
    a failing write changes no answer of the service.  The assessment is the
    one a working database would give (the event is lost silently), and so
    is the result of an escalation. *)
Theorem failed_write_changes_no_answer :
  forall (A : Arith) (db : EventStore) (now : Z)
         (user_id content trigger_source : string),
    rollback db = Returned ->
    assess_crisis_risk db now user_id content trigger_source
    = assess_crisis_risk store_up now user_id content trigger_source
    /\ (forall (a : RiskAssessment) (escalation_type : string),
          escalate_crisis db now a escalation_type
          = escalate_crisis store_up now a escalation_type).
Proof.
  intros A db now uid content src H.
  destruct (rollback_returned db H) as [Hstore Hupdate]. split.
  - unfold assess_crisis_risk.
    rewrite (assess_try_store_returns db store_up now uid content src Hstore
               (fun _ _ => eq_refl)).
    reflexivity.
  - intros a etype. unfold escalate_crisis.
    destruct (CrisisLevel_eqb (crisis_level a) CRITICAL);
      [|destruct (CrisisLevel_eqb (crisis_level a) HIGH)];
      rewrite Hupdate; reflexivity.
Qed.

Lemma failed_write_changes_no_answer_witness :
  assess_crisis_risk (A := binary64) store_read_only 0 "42" plan_tonight "chat"
  = assess_crisis_risk store_up 0 "42" plan_tonight "chat"
  /\ (forall (a : RiskAssessment (A := binary64)) (escalation_type : string),
        escalate_crisis store_read_only 0 a escalation_type
        = escalate_crisis store_up 0 a escalation_type).
Proof.
  apply (failed_write_changes_no_answer binary64 store_read_only 0 "42"
           plan_tonight "chat").
  reflexivity.
Defined.

(** X10. In binary64, when the update of the stored event does not raise:
    escalating the assessment that [assess_crisis_risk] returned always
    answers [escalated = true]; it lists at least three actions and three
    next steps when the assessment needs escalation, and no action and no
    step when it does not. *)
Theorem escalate_after_assess :
  forall (db : EventStore (A := binary64)) (now : Z)
         (user_id content trigger_source escalation_type : string),
    (forall actions,
        _update_crisis_event_escalation db user_id actions = Returned) ->
    let a := assess_crisis_risk db now user_id content trigger_source in
    let r := escalate_crisis db now a escalation_type in
    escalated r = true
    /\ (escalation_needed a = true ->
        exists actions steps,
          actions_taken r = Some actions /\ next_steps r = Some steps
          /\ (3 <= List.length actions)%nat /\ List.length steps = 3%nat)
    /\ (escalation_needed a = false ->
        actions_taken r = Some [] /\ next_steps r = Some []).
Proof.
  intros db now uid content src etype Hupdate a r.
  assert (Huid : user_id a = uid).
  { subst a. unfold assess_crisis_risk.
    destruct (assess_try db now uid content src) as [a | e] eqn:E.
    - apply (assess_try_fields db now uid content src a E).
    - reflexivity. }
  assert (Hret : forall actions,
             _update_crisis_event_escalation db (user_id a) actions = Returned)
    by (rewrite Huid; exact Hupdate).
  destruct (escalate_crisis_returned db now a etype Hret)
    as (Hesc & _ & _ & actions & steps & Hacts & Hsteps & Hlen).
  fold r in Hesc, Hacts, Hsteps.
  pose proof (proj1 (assess_escalation (A := binary64)
                       above_08_above_07_binary64 db now uid content src))
    as Hneeded.
  fold a in Hneeded.
  split; [exact Hesc|]. rewrite Hneeded. split.
  - intros Hhigh. exists actions, steps.
    split; [exact Hacts|]. split; [exact Hsteps|].
    destruct (crisis_level a); try discriminate Hhigh;
      injection Hlen as -> ->; split; auto.
  - intros Hlow. rewrite Hacts, Hsteps.
    destruct (crisis_level a); try discriminate Hlow;
      injection Hlen as Ha Hs;
      destruct actions; try discriminate Ha;
      destruct steps; try discriminate Hs; split; reflexivity.
Qed.

Lemma escalate_after_assess_witness :
  let a := assess_crisis_risk (A := binary64) store_up 0 "42" plan_tonight
             "chat" in
  let r := escalate_crisis store_up 0 a "professional" in
  escalated r = true
  /\ (escalation_needed a = true ->
      exists actions steps,
        actions_taken r = Some actions /\ next_steps r = Some steps
        /\ (3 <= List.length actions)%nat /\ List.length steps = 3%nat)
  /\ (escalation_needed a = false ->
      actions_taken r = Some [] /\ next_steps r = Some []).
Proof.
  apply (escalate_after_assess store_up 0 "42" plan_tonight "chat"
           "professional").
  intros actions. reflexivity.
Defined.

(** ** The crisis level grows with the score and the factors *)

Section LevelMonotone.

Context {A : Arith}.
Local Open Scope py_scope.

Variable at_most : num -> num -> Prop.

Hypothesis above_threshold :
  forall c r r' : num,
    at_most r r' -> (r >? c) = true -> (r' >? c) = true.

Lemma level_monotone :
  forall (r r' : num) (fs fs' : list RiskFactor),
    at_most r r' -> NoDup fs -> incl fs fs' ->
    (level_rank (_determine_crisis_level r fs)
     <= level_rank (_determine_crisis_level r' fs'))%nat.
Proof.
  intros r r' fs fs' Hr Hnd Hincl.
  assert (Hin : forall f, factor_in f fs = true -> factor_in f fs' = true).
  { intros f H. apply factor_in_In. apply Hincl. apply factor_in_In, H. }
  assert (Hlen : forall n : nat,
             (n <=? List.length fs)%nat = true ->
             (n <=? List.length fs')%nat = true).
  { intros n H. apply Nat.leb_le. apply Nat.leb_le in H.
    pose proof (NoDup_incl_length Hnd Hincl). lia. }
  pose proof (above_threshold (lit 0.8) r r' Hr) as H8.
  pose proof (above_threshold (lit 0.7) r r' Hr) as H7.
  pose proof (above_threshold (lit 0.6) r r' Hr) as H6.
  pose proof (above_threshold (lit 0.4) r r' Hr) as H4.
  pose proof (above_threshold (lit 0.2) r r' Hr) as H2.
  pose proof (Hin SUICIDAL_IDEATION) as Hs.
  pose proof (Hin SELF_HARM) as Hsh.
  pose proof (Hin HOPELESSNESS) as Hh.
  pose proof (Hlen 2%nat) as Hl2.
  pose proof (Hlen 1%nat) as Hl1.
  unfold _determine_crisis_level.
  set (c1 := factor_in SUICIDAL_IDEATION fs && (r >? lit 0.8)).
  set (c1' := factor_in SUICIDAL_IDEATION fs' && (r' >? lit 0.8)).
  set (c2 := (r >? lit 0.7) || factor_in SUICIDAL_IDEATION fs
             || factor_in SELF_HARM fs
             || (factor_in HOPELESSNESS fs && (r >? lit 0.6))).
  set (c2' := (r' >? lit 0.7) || factor_in SUICIDAL_IDEATION fs'
              || factor_in SELF_HARM fs'
              || (factor_in HOPELESSNESS fs' && (r' >? lit 0.6))).
  set (c3 := (r >? lit 0.4) || (2 <=? List.length fs)%nat
             || factor_in HOPELESSNESS fs).
  set (c3' := (r' >? lit 0.4) || (2 <=? List.length fs')%nat
              || factor_in HOPELESSNESS fs').
  set (c4 := (r >? lit 0.2) || (1 <=? List.length fs)%nat).
  set (c4' := (r' >? lit 0.2) || (1 <=? List.length fs')%nat).
  assert (C1 : c1 = true -> c1' = true).
  { subst c1 c1'. rewrite !andb_true_iff. tauto. }
  assert (C2 : c2 = true -> c2' = true).
  { subst c2 c2'. rewrite !orb_true_iff, !andb_true_iff. tauto. }
  assert (C3 : c3 = true -> c3' = true).
  { subst c3 c3'. rewrite !orb_true_iff. tauto. }
  assert (C4 : c4 = true -> c4' = true).
  { subst c4 c4'. rewrite !orb_true_iff. tauto. }
  clearbody c1 c1' c2 c2' c3 c3' c4 c4'.
  destruct c1; [rewrite (C1 eq_refl); apply le_n|].
  destruct c2; [rewrite (C2 eq_refl); destruct c1'; cbn; lia|].
  destruct c3;
    [rewrite (C3 eq_refl); destruct c1', c2'; cbn; lia|].
  destruct c4;
    [rewrite (C4 eq_refl); destruct c1', c2', c3'; cbn; lia|].
  cbn. lia.
Qed.

End LevelMonotone.

Lemma above_threshold_exact :
  forall c r r' : Q,
    (r <= r')%Q -> ltb (Arith := exact) c r = true ->
    ltb (Arith := exact) c r' = true.
Proof.
  intros c r r' H. exact_arith. rewrite !Qltb_true_iff. lra.
Qed.

Lemma above_threshold_binary64 :
  forall c r r' : PrimFloat.float,
    PrimFloat.leb r r' = true -> ltb (Arith := binary64) c r = true ->
    ltb (Arith := binary64) c r' = true.
Proof.
  intros c r r' H Hc. exact (float_ltb_leb_trans c r r' Hc H).
Qed.

(** X11. [_determine_crisis_level] never answers a lower level for a higher
    risk score together with more factors: when the factors [fs], without
    duplicates, are all among [fs'], the level for a score [r] and [fs] is
    at most the level for [r'] and [fs'], for rationals [r <= r'] and for
    binary64 numbers [r <= r']. *)
Theorem determine_crisis_level_monotone :
  forall fs fs' : list RiskFactor,
    NoDup fs -> incl fs fs' ->
    (forall r r' : Q,
        (r <= r')%Q ->
        (level_rank (_determine_crisis_level (A := exact) r fs)
         <= level_rank (_determine_crisis_level (A := exact) r' fs'))%nat)
    /\ (forall r r' : PrimFloat.float,
          PrimFloat.leb r r' = true ->
          (level_rank (_determine_crisis_level (A := binary64) r fs)
           <= level_rank (_determine_crisis_level (A := binary64) r' fs'))%nat).
Proof.
  intros fs fs' Hnd Hincl. split; intros r r' Hr.
  - exact (level_monotone (A := exact) Qle above_threshold_exact
             r r' fs fs' Hr Hnd Hincl).
  - exact (level_monotone (A := binary64)
             (fun x y => PrimFloat.leb x y = true) above_threshold_binary64
             r r' fs fs' Hr Hnd Hincl).
Qed.

Lemma determine_crisis_level_monotone_witness :
  (forall r r' : Q,
      (r <= r')%Q ->
      (level_rank (_determine_crisis_level (A := exact) r [DEPRESSION])
       <= level_rank (_determine_crisis_level (A := exact) r'
                        [HOPELESSNESS; DEPRESSION]))%nat)
  /\ (forall r r' : PrimFloat.float,
        PrimFloat.leb r r' = true ->
        (level_rank (_determine_crisis_level (A := binary64) r [DEPRESSION])
         <= level_rank (_determine_crisis_level (A := binary64) r'
                          [HOPELESSNESS; DEPRESSION]))%nat).
Proof.
  apply (determine_crisis_level_monotone [DEPRESSION]
           [HOPELESSNESS; DEPRESSION]).
  - constructor; [intros [] | constructor].
  - intros f [<- | []]. right. left. reflexivity.
Defined.

(** ** A pattern score grows with the matches *)

Section ScoreMonotone.

Local Open Scope Q_scope.

Ltac name_sum n s H :=
  match goal with
  | |- context [@add_times exact n ?x ?y] =>
      pose proof (add_times_exact n x y) as H; revert H;
      generalize (@add_times exact n x y); intros s H
  end.

Lemma bonus_nonneg :
  forall (w : Q) (j : nat),
    0 <= w -> 0 <= pymin (A := exact) (add_times (A := exact) j 0.1 0.0)
                      (w * 0.3).
Proof.
  intros w j Hw. apply pymin_glb; [apply modifier_bonus_nonneg | lra].
Qed.

Lemma bonus_monotone :
  forall (w : Q) (j j' : nat),
    (j <= j')%nat ->
    pymin (A := exact) (add_times (A := exact) j 0.1 0.0) (w * 0.3)
    <= pymin (A := exact) (add_times (A := exact) j' 0.1 0.0) (w * 0.3).
Proof.
  intros w j j' Hj. apply pymin_monotone. rewrite !add_times_exact.
  pose proof (count_monotone j j' Hj). nra.
Qed.

Lemma score_of_counts_nonneg :
  forall (w : Q) (k j : nat) (neg : bool),
    0 <= w -> 0 <= score_of_counts (A := exact) w k j neg.
Proof.
  intros w k j neg Hw. unfold score_of_counts.
  destruct (k =? 0)%nat; [exact_arith; lra|].
  apply pymin_glb; [|exact_arith; lra].
  pose proof (bonus_nonneg w j Hw) as Hbonus.
  pose proof (count_nonneg k) as Hk.
  exact_arith. revert Hbonus.
  generalize (pymin (A := exact) (add_times (A := exact) j 0.1 0.0)
                (w * 0.3)).
  intros bonus Hbonus. name_sum k s Hs.
  destruct (1 <? k)%nat, neg; nra.
Qed.

Lemma score_of_counts_monotone :
  forall (w : Q) (k k' j j' : nat) (neg neg' : bool),
    0 <= w -> (k <= k')%nat -> (j <= j')%nat ->
    (neg' = true -> neg = true) ->
    score_of_counts (A := exact) w k j neg
    <= score_of_counts (A := exact) w k' j' neg'.
Proof.
  intros w k k' j j' neg neg' Hw Hk Hj Hneg.
  destruct (k =? 0)%nat eqn:Ek.
  - unfold score_of_counts at 1. rewrite Ek.
    pose proof (score_of_counts_nonneg w k' j' neg' Hw). exact_arith. lra.
  - assert (Ek' : (k' =? 0)%nat = false).
    { apply Nat.eqb_neq in Ek. apply Nat.eqb_neq. lia. }
    unfold score_of_counts. rewrite Ek, Ek'.
    apply pymin_monotone.
    pose proof (bonus_monotone w j j' Hj) as Hbonus.
    pose proof (bonus_nonneg w j Hw) as Hb0.
    pose proof (count_monotone k k' Hk) as Hkk.
    pose proof (count_nonneg k) as Hk0.
    assert (Hmulti : (1 <? k)%nat = true -> (1 <? k')%nat = true).
    { rewrite !Nat.ltb_lt. lia. }
    exact_arith. revert Hbonus Hb0.
    generalize (pymin (A := exact) (add_times (A := exact) j 0.1 0.0)
                  (w * 0.3)).
    generalize (pymin (A := exact) (add_times (A := exact) j' 0.1 0.0)
                  (w * 0.3)).
    intros b' b Hbonus Hb0.
    destruct (Nat.eq_dec k k') as [<- | Hne].
    + name_sum k s Hs.
      destruct (1 <? k)%nat;
        (destruct neg'; [rewrite (Hneg eq_refl)|destruct neg]); nra.
    + name_sum k s Hs. name_sum k' s' Hs'.
      destruct (1 <? k)%nat; [rewrite (Hmulti eq_refl)|destruct (1 <? k')%nat];
        (destruct neg'; [rewrite (Hneg eq_refl)|destruct neg]); nra.
Qed.

End ScoreMonotone.

(** X12. In exact arithmetic, for a pattern of nonnegative weight: a content
    that matches at least as many keywords and context modifiers of the
    pattern as another one, and holds a negation only when the other one
    does, scores at least as much; and no score is negative. *)
Theorem evaluate_pattern_monotone :
  forall (content content' : string)
         (pattern : CrisisKeywordPattern (A := exact)),
    (0 <= severity_weight pattern)%Q ->
    (matches content (keywords pattern)
     <= matches content' (keywords pattern))%nat ->
    (matches content (context_modifiers pattern)
     <= matches content' (context_modifiers pattern))%nat ->
    (negation_found content' = true -> negation_found content = true) ->
    (0 <= _evaluate_pattern content pattern)%Q
    /\ (_evaluate_pattern content pattern
        <= _evaluate_pattern content' pattern)%Q.
Proof.
  intros content content' pattern Hw Hk Hj Hneg.
  rewrite !evaluate_pattern_counts. split.
  - apply score_of_counts_nonneg, Hw.
  - apply score_of_counts_monotone; assumption.
Qed.

Lemma evaluate_pattern_monotone_witness :
  (0 <= _evaluate_pattern (A := exact) not_hopeless hopelessness_pattern)%Q
  /\ (_evaluate_pattern (A := exact) not_hopeless hopelessness_pattern
      <= _evaluate_pattern (A := exact) plainly_hopeless
           hopelessness_pattern)%Q.
Proof.
  apply (evaluate_pattern_monotone not_hopeless plainly_hopeless
           hopelessness_pattern).
  - vm_compute. discriminate.
  - vm_compute. lia.
  - vm_compute. lia.
  - vm_compute. discriminate.
Defined.

(** ** The chat route *)

Section ChatFacts.

Context {A : Arith}.

Variable round3 : num -> num.

Lemma store_raises_level_none :
  forall (db : EventStore) (now : Z) (uid content src : string),
    (forall a s, _store_crisis_event db a s <> Returned) ->
    crisis_level (assess_crisis_risk db now uid content src) = NONE.
Proof.
  intros db now uid content src H. unfold assess_crisis_risk, assess_try.
  destruct (fold_left _ _ _) as [[fs r] imm].
  match goal with
  | |- context [CrisisLevel_eqb ?l NONE] => destruct l eqn:El
  end; cbn [CrisisLevel_eqb negb]; try reflexivity;
    match goal with
    | |- context [_store_crisis_event ?d ?a ?s] =>
        pose proof (H a s) as Hs; destruct (_store_crisis_event d a s)
    end; try reflexivity; contradiction.
Qed.

Lemma chat_level_none :
  forall (has : bool) (db : EventStore) (now : Z) (uid message : string),
    crisis_level (assess_crisis_risk db now uid message "chat") = NONE ->
    chat_ai_response round3 has db now uid message
    = _generate_mock_response message.
Proof.
  intros has db now uid message H. unfold chat_ai_response.
  destruct has; [|reflexivity]. rewrite H. reflexivity.
Qed.

Lemma mock_response_levels :
  forall message : string,
    ai_crisis_level (_generate_mock_response message)
    = if existsb (fun keyword => str_in keyword (lower message))
           mock_crisis_keywords
      then "high" else "none".
Proof.
  intros message. unfold _generate_mock_response.
  destruct (existsb _ mock_crisis_keywords); [reflexivity|].
  destruct (existsb _ _); [reflexivity|].
  destruct (existsb _ _); reflexivity.
Qed.

End ChatFacts.

(** X13. In any arithmetic and for any rounding: with a database whose
    insert and rollback both raise, the chat route answers every message as
    it does without the crisis service, with the mock response; a message
    then gets the crisis level none unless one of the six keywords of the
    mock response occurs in it, whatever the crisis service had found. *)
Theorem chat_without_database :
  forall (A : Arith) (round3 : num -> num) (db : EventStore) (now : Z)
         (user_id message : string),
    (forall a s, insert_event db a s <> Returned) ->
    rollback db <> Returned ->
    let response := chat_ai_response round3 true db now user_id message in
    response = _generate_mock_response message
    /\ response = chat_ai_response round3 false db now user_id message
    /\ (existsb (fun keyword => str_in keyword (lower message))
          mock_crisis_keywords = false ->
        ai_crisis_level response = "none").
Proof.
  intros A round3 db now uid message Hinsert Hrollback response.
  assert (E : response = _generate_mock_response message).
  { apply chat_level_none, store_raises_level_none.
    intros a s. unfold _store_crisis_event.
    pose proof (Hinsert a s) as Hi.
    destruct (insert_event db a s); [contradiction | exact Hrollback]. }
  split; [exact E|]. split; [exact E|].
  intros Hk. rewrite E, mock_response_levels, Hk. reflexivity.
Qed.

Lemma chat_without_database_witness :
  let response :=
    chat_ai_response (A := binary64) (fun x => x) true store_down 0 "42"
      "i keep cutting" in
  response = _generate_mock_response "i keep cutting"
  /\ response = chat_ai_response (fun x => x) false store_down 0 "42"
                  "i keep cutting"
  /\ (existsb (fun keyword => str_in keyword (lower "i keep cutting"))
        mock_crisis_keywords = false ->
      ai_crisis_level response = "none").
Proof.
  apply (chat_without_database binary64 (fun x => x) store_down 0 "42"
           "i keep cutting").
  - intros a s. cbn. discriminate.
  - cbn. discriminate.
Defined.

Lemma mock_keyword_in_catalog :
  forall content : string,
    existsb (fun keyword => str_in keyword content) mock_crisis_keywords
    = true ->
    keyword_occurs (A := binary64) content suicidal_ideation_pattern = true
    \/ keyword_occurs (A := binary64) content self_harm_pattern = true.
Proof.
  intros content H. unfold keyword_occurs.
  cbn [keywords suicidal_ideation_pattern self_harm_pattern existsb].
  cbn [mock_crisis_keywords existsb] in H.
  repeat (apply orb_true_iff in H; destruct H as [H | H]);
    try discriminate H; rewrite H; rewrite ?orb_true_r; cbn [orb]; auto.
Qed.

Lemma crisis_response_988 :
  forall a : RiskAssessment (A := binary64),
    crisis_level a = HIGH \/ crisis_level a = CRITICAL ->
    str_in "988" (_generate_crisis_response a) = true.
Proof.
  intros a H. unfold _generate_crisis_response.
  destruct H as [-> | ->]; vm_compute; reflexivity.
Qed.

Lemma mock_response_988 :
  forall message : string,
    existsb (fun keyword => str_in keyword (lower message))
      mock_crisis_keywords = true ->
    str_in "988" (ai_text (A := binary64) (_generate_mock_response message))
    = true.
Proof.
  intros message H. unfold _generate_mock_response. rewrite H.
  vm_compute. reflexivity.
Qed.

(** X14. In binary64 and for any rounding: when one of the six keywords of
    the mock response occurs in the lowercased message, the response of the
    chat route names the 988 lifeline in its text and carries the crisis
    level high or critical, with or without the crisis service and whatever
    the database does. *)
Theorem chat_names_988 :
  forall (round3 : PrimFloat.float -> PrimFloat.float)
         (HAS_CRISIS_SERVICE : bool) (db : EventStore (A := binary64))
         (now : Z) (user_id message : string),
    existsb (fun keyword => str_in keyword (lower message))
      mock_crisis_keywords = true ->
    let response :=
      chat_ai_response (A := binary64) round3 HAS_CRISIS_SERVICE db now
        user_id message in
    str_in "988" (ai_text response) = true
    /\ (ai_crisis_level response = "high"
        \/ ai_crisis_level response = "critical").
Proof.
  intros round3 has db now uid message Hk response.
  assert (Hmock : str_in "988"
                    (ai_text (A := binary64) (_generate_mock_response message))
                  = true
                  /\ ai_crisis_level (A := binary64)
                       (_generate_mock_response message) = "high").
  { split; [apply mock_response_988, Hk|].
    rewrite mock_response_levels, Hk. reflexivity. }
  subst response. unfold chat_ai_response.
  destruct has; [|split; [apply Hmock | left; apply Hmock]].
  unfold assess_crisis_risk.
  destruct (assess_try db now uid message "chat") as [a | e] eqn:E.
  - assert (Hlevel : crisis_level a = HIGH \/ crisis_level a = CRITICAL).
    { destruct (assess_try_fields db now uid message "chat" a E)
        as (_ & _ & _ & Hl & _).
      rewrite Hl. apply level_floors.
      destruct (mock_keyword_in_catalog (lower message) Hk) as [H | H].
      - left.
        apply (keyword_occurs_detected db now uid message "chat" a
                 suicidal_ideation_pattern E); [left; reflexivity | exact H].
      - right.
        apply (keyword_occurs_detected db now uid message "chat" a
                 self_harm_pattern E); [right; left; reflexivity | exact H]. }
    pose proof (crisis_response_988 a Hlevel) as H988.
    destruct Hlevel as [Hl | Hl]; rewrite Hl in *;
      cbn [CrisisLevel_eqb negb ai_text ai_crisis_level CrisisLevel_value];
      (split; [exact H988 | auto]).
  - cbn [_create_safe_default_assessment crisis_level CrisisLevel_eqb negb].
    split; [apply Hmock | left; apply Hmock].
Qed.

Lemma chat_names_988_witness :
  let response :=
    chat_ai_response (A := binary64) (fun x => x) true store_down 0 "42"
      "I want to die" in
  str_in "988" (ai_text response) = true
  /\ (ai_crisis_level response = "high"
      \/ ai_crisis_level response = "critical").
Proof.
  apply (chat_names_988 (fun x => x) true store_down 0 "42" "I want to die").
  reflexivity.
Defined.

(** ** Enum values *)

(** X15. [CrisisLevel(value)] and [.value] are inverse to each other: the
    value of a level is parsed back to that level, a string is parsed to a
    level only when it is that level's value, and the values of
    [RiskFactor] are pairwise distinct. *)
Theorem enum_value_round_trip :
  (forall level : CrisisLevel,
      CrisisLevel_of_value (CrisisLevel_value level) = Some level)
  /\ (forall (value : string) (level : CrisisLevel),
        CrisisLevel_of_value value = Some level ->
        value = CrisisLevel_value level)
  /\ (forall f g : RiskFactor,
        RiskFactor_value f = RiskFactor_value g -> f = g).
Proof.
  split; [|split].
  - intros []; reflexivity.
  - intros value level. unfold CrisisLevel_of_value.
    repeat match goal with
           | |- context [String.eqb value ?s] =>
               destruct (String.eqb_spec value s) as [-> | _]
           end;
      intros H; try discriminate H; injection H as <-; reflexivity.
  - intros [] []; cbn; intros H; try reflexivity; discriminate H.
Qed.

(** ** The escalation route *)

Section EscalateRouteFacts.

Context {A : Arith}.



End EscalateRouteFacts.




(** ** The resources route *)






